(** * LOCUS point_cloud_odometry: the IMU/registration fusion core

    A shallow embedding of [PointCloudOdometry.cc]: the bounded buffer of
    orientation samples filled by [SetImuData], the per-scan cycle
    [UpdateEstimate] (timestamp matching, delta-attitude queue, the
    self-check that toggles [use_imu_data_]) and [UpdateICP] (splicing of
    IMU roll/pitch with the registration yaw, gating, integration).

    Conventions of the embedding.
    - The member variables of the class are the fields of [State]; a member
      function is a function from the state (and its arguments) to the new
      state, its return value and the list of [event]s it emitted
      (publications and the registration call), in program order.
    - [std::deque] is a [list], front first.  [operator[]], [front] and
      [pop_front] on an empty deque have no defined behaviour in C++; the
      embedding returns [OutOfRange] there.
    - Transforms and angles are real numbers: float and double rounding in
      the matrix and trigonometric code is not modelled.
    - The float values held in [cur_ts_diff] and [min_ts_diff] are the
      rationals they denote.  How a difference of two [ros::Time] becomes
      such a float ([operator-], [toSec], narrowing) is library code and is
      the parameter [ts_diff] of the section.
    - What the class calls in PCL, Eigen's LU inverse and geometry_utils is
      taken as a parameter of the section; tf's [getRPY] and Eigen's
      angle-axis and quaternion conversions are written out. *)

From Stdlib Require Import String.
From Stdlib Require Import List Bool Arith ZArith QArith Qabs Lia Lqa.
From Stdlib Require Import Reals Lra.
From Stdlib Require Import RNsatz Qreals.
Import ListNotations.

Set Implicit Arguments.

(** ** Results of code that may index out of range *)

Inductive result (A : Type) : Type :=
| Ok (a : A)
| OutOfRange.

Arguments Ok {A} a.
Arguments OutOfRange {A}.

(** ** Boolean comparisons *)

Definition Qltb (x y : Q) : bool := negb (Qle_bool y x).

Definition Rleb (x y : R) : bool := if Rle_dec x y then true else false.

(** ** Vectors and matrices (Eigen, geometry_utils) *)

Module Geometry.

Local Open Scope R_scope.

Record Vec3 : Type := mkVec3 { vx : R; vy : R; vz : R }.

(** Row-major 3x3 matrix: [mIJ] is the entry of row I, column J. *)
Record Mat3 : Type := mkMat3 {
  m00 : R; m01 : R; m02 : R;
  m10 : R; m11 : R; m12 : R;
  m20 : R; m21 : R; m22 : R
}.

(** An [Eigen::Matrix4f], cut in the four blocks the code addresses:
    [block] is [T.block(0,0,3,3)], [col3] holds [T(0,3)], [T(1,3)],
    [T(2,3)], [row3] holds [T(3,0)], [T(3,1)], [T(3,2)] and [m33] is
    [T(3,3)]. *)
Record Mat4 : Type := mkMat4 {
  block : Mat3;
  col3 : Vec3;
  row3 : Vec3;
  m33 : R
}.

(** [gu::Transform3]. *)
Record Transform3 : Type := mkTransform3 {
  translation : Vec3;
  rotation : Mat3
}.

Definition Identity3 : Mat3 := mkMat3 1 0 0 0 1 0 0 0 1.

Definition Identity4 : Mat4 := mkMat4 Identity3 (mkVec3 0 0 0) (mkVec3 0 0 0) 1.

(** [mat4.block(0,0,3,3) = mat3]. *)
Definition set_block (T : Mat4) (b : Mat3) : Mat4 :=
  mkMat4 b (col3 T) (row3 T) (m33 T).

Definition mat3_mul (a b : Mat3) : Mat3 :=
  mkMat3
    (m00 a * m00 b + m01 a * m10 b + m02 a * m20 b)
    (m00 a * m01 b + m01 a * m11 b + m02 a * m21 b)
    (m00 a * m02 b + m01 a * m12 b + m02 a * m22 b)
    (m10 a * m00 b + m11 a * m10 b + m12 a * m20 b)
    (m10 a * m01 b + m11 a * m11 b + m12 a * m21 b)
    (m10 a * m02 b + m11 a * m12 b + m12 a * m22 b)
    (m20 a * m00 b + m21 a * m10 b + m22 a * m20 b)
    (m20 a * m01 b + m21 a * m11 b + m22 a * m21 b)
    (m20 a * m02 b + m21 a * m12 b + m22 a * m22 b).

Definition mat3_vec (a : Mat3) (v : Vec3) : Vec3 :=
  mkVec3 (m00 a * vx v + m01 a * vy v + m02 a * vz v)
         (m10 a * vx v + m11 a * vy v + m12 a * vz v)
         (m20 a * vx v + m21 a * vy v + m22 a * vz v).

Definition vec_mat3 (v : Vec3) (a : Mat3) : Vec3 :=
  mkVec3 (vx v * m00 a + vy v * m10 a + vz v * m20 a)
         (vx v * m01 a + vy v * m11 a + vz v * m21 a)
         (vx v * m02 a + vy v * m12 a + vz v * m22 a).

Definition dot (u v : Vec3) : R := vx u * vx v + vy u * vy v + vz u * vz v.

(** The 4x4 product, block by block. *)
Definition mat4_mul (a b : Mat4) : Mat4 :=
  let bb := mat3_mul (block a) (block b) in
  let ab := mat3_vec (block a) (col3 b) in
  let ra := vec_mat3 (row3 a) (block b) in
  mkMat4
    (mkMat3
       (m00 bb + vx (col3 a) * vx (row3 b))
       (m01 bb + vx (col3 a) * vy (row3 b))
       (m02 bb + vx (col3 a) * vz (row3 b))
       (m10 bb + vy (col3 a) * vx (row3 b))
       (m11 bb + vy (col3 a) * vy (row3 b))
       (m12 bb + vy (col3 a) * vz (row3 b))
       (m20 bb + vz (col3 a) * vx (row3 b))
       (m21 bb + vz (col3 a) * vy (row3 b))
       (m22 bb + vz (col3 a) * vz (row3 b)))
    (mkVec3 (vx ab + vx (col3 a) * m33 b)
            (vy ab + vy (col3 a) * m33 b)
            (vz ab + vz (col3 a) * m33 b))
    (mkVec3 (vx ra + m33 a * vx (row3 b))
            (vy ra + m33 a * vy (row3 b))
            (vz ra + m33 a * vz (row3 b)))
    (dot (row3 a) (col3 b) + m33 a * m33 b).

(** [gu::Vec3::Norm]. *)
Definition Norm (v : Vec3) : R := sqrt (vx v * vx v + vy v * vy v + vz v * vz v).

(** [Eigen::Quaternionf(w, x, y, z).toRotationMatrix()]. *)
Definition toRotationMatrix (w x y z : R) : Mat3 :=
  let tx := 2 * x in
  let ty := 2 * y in
  let tz := 2 * z in
  let twx := tx * w in
  let twy := ty * w in
  let twz := tz * w in
  let txx := tx * x in
  let txy := ty * x in
  let txz := tz * x in
  let tyy := ty * y in
  let tyz := tz * y in
  let tzz := tz * z in
  mkMat3 (1 - (tyy + tzz)) (txy - twz) (txz + twy)
         (txy + twz) (1 - (txx + tzz)) (tyz - twx)
         (txz - twy) (tyz + twx) (1 - (txx + tyy)).

(** [Eigen::AngleAxisf(a, UnitX())], [UnitY()], [UnitZ()] as rotation
    matrices; a product of angle-axis rotations assigned to a matrix is the
    product of these. *)
Definition AngleAxisX (a : R) : Mat3 :=
  mkMat3 1 0 0
         0 (cos a) (- sin a)
         0 (sin a) (cos a).

Definition AngleAxisY (a : R) : Mat3 :=
  mkMat3 (cos a) 0 (sin a)
         0 1 0
         (- sin a) 0 (cos a).

Definition AngleAxisZ (a : R) : Mat3 :=
  mkMat3 (cos a) (- sin a) 0
         (sin a) (cos a) 0
         0 0 1.

(** C's [atan2 (y, x)]. *)
Definition atan2 (y x : R) : R :=
  if Rlt_dec 0 x then atan (y / x)
  else if Rlt_dec x 0 then
         if Rle_dec 0 y then atan (y / x) + PI else atan (y / x) - PI
  else if Rlt_dec 0 y then PI / 2
  else if Rlt_dec y 0 then - (PI / 2)
  else 0.

(** [tf::Matrix3x3::getRPY], first solution: the angles (roll, pitch, yaw)
    of the fixed-axis decomposition [m = Rz(yaw) * Ry(pitch) * Rx(roll)].
    The code reaches it through a quaternion built from the matrix
    ([Eigen::Quaternion(m)], [tf::Matrix3x3(q)]), which gives back [m] when
    [m] is a rotation. *)
Definition getRPY (m : Mat3) : Vec3 :=
  if Rle_dec 1 (Rabs (m20 m)) then
    let delta := atan2 (m21 m) (m22 m) in
    if Rlt_dec (m20 m) 0 then mkVec3 delta (PI / 2) 0
    else mkVec3 delta (- (PI / 2)) 0
  else
    let pitch := - asin (m20 m) in
    mkVec3 (atan2 (m21 m / cos pitch) (m22 m / cos pitch))
           pitch
           (atan2 (m10 m / cos pitch) (m00 m / cos pitch)).

(** Lines 364-371: [OUTPUT_ROTATION]. *)
Definition OUTPUT_ROTATION (out_roll out_pitch out_yaw : R) : Mat3 :=
  mat3_mul (mat3_mul (AngleAxisX out_roll) (AngleAxisY out_pitch))
           (AngleAxisZ out_yaw).

End Geometry.

Export Geometry.

(** ** The odometry class *)

Module PointCloudOdometry.

Section Members.

(** [pcl::PointCloud<PointXYZ>], with the [ros::Time] that line 212 derives
    from its header. *)
Variable PointCloud : Type.
Variable Time : Type.
Variable stamp_of : PointCloud -> Time.

(** The float [(a - b).toSec()] of line 239. *)
Variable ts_diff : Time -> Time -> Q.

(** [Eigen::Matrix4f::inverse]. *)
Variable inverse : Mat4 -> Mat4.

(** Lines 308-316 and [icp.getFinalTransformation()]: generalized ICP with
    the source cloud first and the target cloud second. *)
Variable icp_align : PointCloud -> PointCloud -> Mat4.

(** [gu::PoseUpdate] and [gu::Rot3::ToEulerZYX]. *)
Variable PoseUpdate : Transform3 -> Transform3 -> Transform3.
Variable ToEulerZYX : Mat3 -> Vec3.

(** The struct [imu_data] stored in [imu_deque_]. *)
Record imu_data : Type := mk_imu_data {
  internal_imu_attitude_ : Mat4;
  internal_imu_attitude_timestamp_ : Time
}.

(** The member variables the fusion core reads or writes. *)
Record State : Type := mkState {
  initialized_ : bool;
  imu_data_has_been_received_ : bool;
  use_imu_data_ : bool;
  check_imu_data_ : bool;
  imu_threshold_ : Q;
  transform_thresholding_ : bool;
  max_translation_ : R;
  max_rotation_ : R;
  imu_deque_ : list imu_data;
  imu_attitude_deque_ : list Mat4;
  imu_first_attitude_ : Mat4;
  imu_previous_attitude_ : Mat4;
  imu_current_attitude_ : Mat4;
  imu_change_in_attitude_ : Mat4;
  query_ : PointCloud;
  reference_ : PointCloud;
  stamp_ : Time;
  incremental_estimate_ : Transform3;
  integrated_estimate_ : Transform3
}.

(** What a call makes visible outside the object, in program order. *)
Inductive event : Type :=
| PublishTimestampDifference (imu_lidar_ts_diff : Q)
| IcpAlign (source target : PointCloud)
| PublishRpyComputed (rpy_lidar : Vec3)
| PublishRpyImu (rpy_imu : Vec3)
| WarnDiscarding (t r : R)
| PublishPose_incremental (pose : Transform3)
| PublishPose_integrated (pose : Transform3)
| PublishPoints_query (points : PointCloud)
| PublishPoints_reference (points : PointCloud)
| SendTransform (pose : Transform3) (stamp : Time).

(** *** SetImuData *)

Definition imu_deque_capacity : nat := 100.

(** Lines 189-196: buffering in FIFO structure. *)
Definition push_imu (imu_deque : list imu_data) (d : imu_data) : list imu_data :=
  if Nat.eqb (length imu_deque) imu_deque_capacity
  then tl imu_deque ++ [d]
  else imu_deque ++ [d].

Definition SetImuData (s : State) (w x y z : R) (timestamp : Time) : State :=
  let mat3 := toRotationMatrix w x y z in
  let mat4 := set_block Identity4 mat3 in
  let first := negb (imu_data_has_been_received_ s) in
  mkState
    (initialized_ s)
    true
    (use_imu_data_ s)
    (check_imu_data_ s)
    (imu_threshold_ s)
    (transform_thresholding_ s)
    (max_translation_ s)
    (max_rotation_ s)
    (push_imu (imu_deque_ s) (mk_imu_data mat4 timestamp))
    (imu_attitude_deque_ s)
    (if first then mat4 else imu_first_attitude_ s)
    (imu_previous_attitude_ s)
    (imu_current_attitude_ s)
    (imu_change_in_attitude_ s)
    (query_ s)
    (reference_ s)
    (stamp_ s)
    (incremental_estimate_ s)
    (integrated_estimate_ s).

(** The sample that [SetImuData] appends. *)
Definition sample_of (q : R * R * R * R * Time) : imu_data :=
  let '(w, x, y, z, t) := q in
  mk_imu_data (set_block Identity4 (toRotationMatrix w x y z)) t.

(** A call of [SetImuData] on a quaternion and its time stamp. *)
Definition ingest (s : State) (q : R * R * R * R * Time) : State :=
  let '(w, x, y, z, t) := q in SetImuData s w x y z t.

(** *** Timestamp matching, lines 234-245 *)

(** The initial value of [min_ts_diff]. *)
Definition no_match_ts_diff : Q := 1000.

(** One turn of the loop of lines 238-245 on the pair
    ([imu_current_attitude_], [min_ts_diff]). *)
Definition match_step (stamp : Time) (acc : Mat4 * Q) (e : imu_data) : Mat4 * Q :=
  let cur_ts_diff := ts_diff (internal_imu_attitude_timestamp_ e) stamp in
  if Qltb cur_ts_diff 0 && Qltb (Qabs cur_ts_diff) (Qabs (snd acc))
  then (internal_imu_attitude_ e, cur_ts_diff)
  else acc.

(** Lines 235-245 on the copy of the deque: the attitude left in
    [imu_current_attitude_] and the final [min_ts_diff]. *)
Definition findAligned (imu_deque_copy_ : list imu_data) (stamp : Time)
  : result (Mat4 * Q) :=
  match imu_deque_copy_ with
  | [] => OutOfRange
  | e0 :: _ =>
      Ok (fold_left (match_step stamp) imu_deque_copy_
            (internal_imu_attitude_ e0, no_match_ts_diff))
  end.

(** The difference that line 239 computes for a sample. *)
Definition delta_of (stamp : Time) (e : imu_data) : Q :=
  ts_diff (internal_imu_attitude_timestamp_ e) stamp.

(** The samples line 241 can accept at all: strictly earlier than the scan
    and by less than the initial [min_ts_diff]. *)
Definition eligible (stamp : Time) (e : imu_data) : Prop :=
  (- (1000) < delta_of stamp e)%Q /\ (delta_of stamp e < 0)%Q.

(** [e], at index [i], is the first of the eligible samples of [l] whose
    difference is the closest to zero. *)
Definition first_closest (stamp : Time) (l : list imu_data) (i : nat) (e : imu_data)
  : Prop :=
  nth_error l i = Some e
  /\ eligible stamp e
  /\ (forall j e', nth_error l j = Some e' -> eligible stamp e' ->
        (delta_of stamp e' <= delta_of stamp e)%Q)
  /\ (forall j e', (j < i)%nat -> nth_error l j = Some e' -> eligible stamp e' ->
        (delta_of stamp e' < delta_of stamp e)%Q).

(** *** The self-check of lines 259-272 *)

(** [float max_ts_diff = 0.05]: the binary32 number nearest to 0.05,
    13421773 / 2^28. *)
Definition max_ts_diff : Q := 13421773 # 268435456.

Definition decideMode (check_imu_data use_imu_data : bool) (min_ts_diff : Q) : bool :=
  if check_imu_data
  then Qltb (Qabs min_ts_diff) (Qabs max_ts_diff)
  else use_imu_data.

(** *** UpdateICP *)

(** The transform [T] as a [gu::Transform3], lines 386-390. *)
Definition to_Transform3 (T : Mat4) : Transform3 :=
  mkTransform3 (col3 T) (block T).

(** Lines 320-380: the transform handed to the pose update, the delta
    queue after it and the diagnostics published on the way. *)
Definition fuse (use_imu_data : bool) (T : Mat4) (imu_attitude_deque : list Mat4)
  : result (Mat4 * list Mat4 * list event) :=
  if use_imu_data then
    let rpy_lidar := getRPY (block T) in
    match imu_attitude_deque with
    | [] => OutOfRange
    | imu_attitude_local_copy_ :: rest =>
        let rpy_imu := getRPY (block imu_attitude_local_copy_) in
        let out_roll := vx rpy_imu in
        let out_pitch := vy rpy_imu in
        let out_yaw := vz rpy_lidar in
        Ok (set_block T (OUTPUT_ROTATION out_roll out_pitch out_yaw),
            rest,
            [PublishRpyComputed rpy_lidar; PublishRpyImu rpy_imu])
    end
  else Ok (T, imu_attitude_deque, []).

(** The condition of lines 394-396. *)
Definition small_enough (transform_thresholding : bool)
    (max_translation max_rotation : R) (t : Transform3) : bool :=
  negb transform_thresholding
  || (Rleb (Norm (translation t)) max_translation
      && Rleb (Norm (ToEulerZYX (rotation t))) max_rotation).

(** Lines 385-423: the pose update with the transform [T] that the fusion
    left, the delta queue [deque'] it left and its diagnostics. *)
Definition integrate (s : State) (T : Mat4) (deque' : list Mat4)
    (diagnostics : list event) : bool * State * list event :=
  let incremental := to_Transform3 T in
  let accepted :=
    small_enough (transform_thresholding_ s) (max_translation_ s)
      (max_rotation_ s) incremental in
  let integrated :=
    if accepted then PoseUpdate (integrated_estimate_ s) incremental
    else integrated_estimate_ s in
  let warning :=
    if accepted then []
    else [WarnDiscarding (Norm (translation incremental))
            (Norm (ToEulerZYX (rotation incremental)))] in
  (true,
   mkState
     (initialized_ s)
     (imu_data_has_been_received_ s)
     (use_imu_data_ s)
     (check_imu_data_ s)
     (imu_threshold_ s)
     (transform_thresholding_ s)
     (max_translation_ s)
     (max_rotation_ s)
     (imu_deque_ s)
     deque'
     (imu_first_attitude_ s)
     (imu_previous_attitude_ s)
     (imu_current_attitude_ s)
     (imu_change_in_attitude_ s)
     (query_ s)
     (reference_ s)
     (stamp_ s)
     incremental
     integrated,
   [IcpAlign (query_ s) (reference_ s)] ++ diagnostics ++ warning
   ++ [PublishPose_incremental incremental;
       PublishPose_integrated integrated;
       PublishPoints_query (query_ s);
       PublishPoints_reference (reference_ s);
       SendTransform integrated (stamp_ s)]).

Definition UpdateICP (s : State) : result (bool * State * list event) :=
  let T0 := icp_align (query_ s) (reference_ s) in
  match fuse (use_imu_data_ s) T0 (imu_attitude_deque_ s) with
  | OutOfRange => OutOfRange
  | Ok (T, deque', diagnostics) => Ok (integrate s T deque' diagnostics)
  end.

Definition GetIncrementalEstimate (s : State) : Transform3 := incremental_estimate_ s.

Definition GetIntegratedEstimate (s : State) : Transform3 := integrated_estimate_ s.

(** *** UpdateEstimate *)

(** Lines 215-232: the first point cloud is stored and the call returns
    [false]. *)
Definition first_cloud (s : State) (points : PointCloud) : bool * State * list event :=
  let stored (initialized : bool) (imu_previous_attitude : Mat4) :=
    mkState
      initialized
      (imu_data_has_been_received_ s)
      (use_imu_data_ s)
      (check_imu_data_ s)
      (imu_threshold_ s)
      (transform_thresholding_ s)
      (max_translation_ s)
      (max_rotation_ s)
      (imu_deque_ s)
      (imu_attitude_deque_ s)
      (imu_first_attitude_ s)
      imu_previous_attitude
      (imu_current_attitude_ s)
      (imu_change_in_attitude_ s)
      points
      (reference_ s)
      (stamp_of points)
      (incremental_estimate_ s)
      (integrated_estimate_ s) in
  if use_imu_data_ s then
    if imu_data_has_been_received_ s
    then (false, stored true (imu_first_attitude_ s), [])
    else (false, stored (initialized_ s) (imu_previous_attitude_ s), [])
  else (false, stored true (imu_previous_attitude_ s), []).

(** Lines 252-281: the state in which [UpdateICP] is entered, once the
    matcher has returned the attitude [cur] and the difference
    [min_ts_diff]. *)
Definition before_icp (s : State) (points : PointCloud) (cur : Mat4) (min_ts_diff : Q)
  : State :=
  let imu_change_in_attitude := mat4_mul cur (inverse (imu_previous_attitude_ s)) in
  mkState
    (initialized_ s)
    (imu_data_has_been_received_ s)
    (decideMode (check_imu_data_ s) (use_imu_data_ s) min_ts_diff)
    (check_imu_data_ s)
    (imu_threshold_ s)
    (transform_thresholding_ s)
    (max_translation_ s)
    (max_rotation_ s)
    (imu_deque_ s)
    (imu_attitude_deque_ s ++ [imu_change_in_attitude])
    (imu_first_attitude_ s)
    cur
    cur
    imu_change_in_attitude
    points
    (query_ s)
    (stamp_of points)
    (incremental_estimate_ s)
    (integrated_estimate_ s).

Definition UpdateEstimate (s : State) (points : PointCloud)
  : result (bool * State * list event) :=
  let imu_deque_copy_ := imu_deque_ s in
  let stamp := stamp_of points in
  if negb (initialized_ s) then Ok (first_cloud s points)
  else
    match findAligned imu_deque_copy_ stamp with
    | OutOfRange => OutOfRange
    | Ok (cur, min_ts_diff) =>
        match UpdateICP (before_icp s points cur min_ts_diff) with
        | OutOfRange => OutOfRange
        | Ok (r, s', evs) => Ok (r, s', PublishTimestampDifference min_ts_diff :: evs)
        end
    end.

(** *** Sequences of calls *)

Inductive call : Type :=
| CallSetImuData (w x y z : R) (timestamp : Time)
| CallUpdateEstimate (points : PointCloud).

Definition do_call (s : State) (c : call) : result (State * list event) :=
  match c with
  | CallSetImuData w x y z t => Ok (SetImuData s w x y z t, [])
  | CallUpdateEstimate points =>
      match UpdateEstimate s points with
      | OutOfRange => OutOfRange
      | Ok (_, s', evs) => Ok (s', evs)
      end
  end.

(** The calls of [cs] one after the other; the events of all of them. *)
Fixpoint run (s : State) (cs : list call) : result (State * list event) :=
  match cs with
  | [] => Ok (s, [])
  | c :: cs' =>
      match do_call s c with
      | OutOfRange => OutOfRange
      | Ok (s1, evs1) =>
          match run s1 cs' with
          | OutOfRange => OutOfRange
          | Ok (s2, evs2) => Ok (s2, evs1 ++ evs2)
          end
      end
  end.

(** The object once [Initialize] has returned: no cloud and no orientation
    sample received, both deques empty.  The configuration and the values
    the constructor leaves unset are those of [s]. *)
Definition fresh (s : State) : Prop :=
  initialized_ s = false
  /\ imu_data_has_been_received_ s = false
  /\ imu_deque_ s = []
  /\ imu_attitude_deque_ s = [].

Definition is_rpy_imu (e : event) : bool :=
  match e with PublishRpyImu _ => true | _ => false end.

Definition is_ts_diff (e : event) : bool :=
  match e with PublishTimestampDifference _ => true | _ => false end.

Definition is_icp (e : event) : bool :=
  match e with IcpAlign _ _ => true | _ => false end.

Definition is_set_imu (c : call) : bool :=
  match c with CallSetImuData _ _ _ _ _ => true | _ => false end.

(** Deltas taken from [imu_attitude_deque_]: each is followed by the
    publication of its angles (lines 343-361). *)
Definition consumed (evs : list event) : nat := length (filter is_rpy_imu evs).

(** Deltas appended to [imu_attitude_deque_]: each follows the publication
    of the timestamp difference (lines 248-257). *)
Definition produced (evs : list event) : nat := length (filter is_ts_diff evs).

(** *** GetLastPointCloud *)

(** Lines 295-303; [query_] is set by the constructor and never reset, so
    the test for a null pointer never fires. *)
Definition GetLastPointCloud (s : State) : option PointCloud :=
  if negb (initialized_ s) then None else Some (query_ s).

(** *** Reading a sequence of calls and its events *)

(** The samples that the calls of [SetImuData] in [cs] append, in order. *)
Definition sample_of_call (c : call) : list imu_data :=
  match c with
  | CallSetImuData w x y z t => [sample_of (w, x, y, z, t)]
  | CallUpdateEstimate _ => []
  end.

Definition samples_of_calls (cs : list call) : list imu_data :=
  flat_map sample_of_call cs.

(** The clouds handed to [UpdateEstimate] in [cs], in order. *)
Definition cloud_of_call (c : call) : list PointCloud :=
  match c with
  | CallSetImuData _ _ _ _ _ => []
  | CallUpdateEstimate points => [points]
  end.

Definition clouds_of_calls (cs : list call) : list PointCloud :=
  flat_map cloud_of_call cs.

(** The incremental poses handed to [PublishPose], in order. *)
Definition incremental_of (e : event) : list Transform3 :=
  match e with
  | PublishPose_incremental pose => [pose]
  | _ => []
  end.

Definition incrementals (evs : list event) : list Transform3 :=
  flat_map incremental_of evs.

(** The states in which no later call reads out of range: the buffer is
    not empty, or the object waits for IMU data. *)
Definition safe_state (s : State) : Prop :=
  imu_deque_ s <> []
  \/ (initialized_ s = false /\ use_imu_data_ s = true
      /\ imu_data_has_been_received_ s = false).

(** *** Construction and start-up *)

(** [pu::Get] on the parameter server, by type of the variable it fills:
    [None] when it returns [false]; a lookup that fails leaves its variable
    as it was.  A double is the rational it denotes. *)
Variable get_string : string -> option string.
Variable get_double : string -> option Q.
Variable get_bool : string -> option bool.
Variable get_int : string -> option Z.

(** [gu::QuatToR (gu::Quat (w, x, y, z))], [gu::Rot3::Roll], [Pitch],
    [Yaw] and the constructor [gu::Rot3 (roll, pitch, yaw)]. *)
Variable QuatToR : R -> R -> R -> R -> Mat3.
Variable Roll : Mat3 -> R.
Variable Pitch : Mat3 -> R.
Variable Yaw : Mat3 -> R.
Variable Rot3 : R -> R -> R -> Mat3.

(** The members that [LoadParameters] fills and [State] does not hold. *)
Record Settings : Type := mkSettings {
  fixed_frame_id_ : string;
  odometry_frame_id_ : string;
  icp_tf_epsilon : Q;
  icp_corr_dist : Q;
  icp_iterations : Z
}.

(** The state with its loaded members replaced. *)
Definition set_loaded (s : State) (use_imu_data check_imu_data : bool)
    (imu_threshold : Q) (transform_thresholding : bool)
    (max_translation max_rotation : R) (integrated_estimate : Transform3) : State :=
  mkState
    (initialized_ s)
    (imu_data_has_been_received_ s)
    use_imu_data
    check_imu_data
    imu_threshold
    transform_thresholding
    max_translation
    max_rotation
    (imu_deque_ s)
    (imu_attitude_deque_ s)
    (imu_first_attitude_ s)
    (imu_previous_attitude_ s)
    (imu_current_attitude_ s)
    (imu_change_in_attitude_ s)
    (query_ s)
    (reference_ s)
    (stamp_ s)
    (incremental_estimate_ s)
    integrated_estimate.

Definition set_integrated_estimate (s : State) (t : Transform3) : State :=
  set_loaded s (use_imu_data_ s) (check_imu_data_ s) (imu_threshold_ s)
    (transform_thresholding_ s) (max_translation_ s) (max_rotation_ s) t.

Definition set_transform_thresholding (s : State) (b : bool) : State :=
  set_loaded s (use_imu_data_ s) (check_imu_data_ s) (imu_threshold_ s)
    b (max_translation_ s) (max_rotation_ s) (integrated_estimate_ s).

Definition set_max_translation (s : State) (x : R) : State :=
  set_loaded s (use_imu_data_ s) (check_imu_data_ s) (imu_threshold_ s)
    (transform_thresholding_ s) x (max_rotation_ s) (integrated_estimate_ s).

Definition set_max_rotation (s : State) (x : R) : State :=
  set_loaded s (use_imu_data_ s) (check_imu_data_ s) (imu_threshold_ s)
    (transform_thresholding_ s) (max_translation_ s) x (integrated_estimate_ s).

Definition set_use_imu_data (s : State) (b : bool) : State :=
  set_loaded s b (check_imu_data_ s) (imu_threshold_ s)
    (transform_thresholding_ s) (max_translation_ s) (max_rotation_ s)
    (integrated_estimate_ s).

Definition set_check_imu_data (s : State) (b : bool) : State :=
  set_loaded s (use_imu_data_ s) b (imu_threshold_ s)
    (transform_thresholding_ s) (max_translation_ s) (max_rotation_ s)
    (integrated_estimate_ s).

Definition set_imu_threshold (s : State) (x : Q) : State :=
  set_loaded s (use_imu_data_ s) (check_imu_data_ s) x
    (transform_thresholding_ s) (max_translation_ s) (max_rotation_ s)
    (integrated_estimate_ s).

(** The value of a variable after an optional lookup: the value found, or
    the one the variable was initialized with. *)
Definition after_Get (A : Type) (initial : A) (found : option A) : A :=
  match found with
  | Some v => v
  | None => initial
  end.

(** Lines 88-123: the initial pose, from the fiducial keys that are
    there. *)
Definition initial_pose : Transform3 :=
  let init_x := after_Get 0%Q (get_double "fiducial_calibration/position/x") in
  let init_y := after_Get 0%Q (get_double "fiducial_calibration/position/y") in
  let init_z := after_Get 0%Q (get_double "fiducial_calibration/position/z") in
  let init_qx := after_Get 0%Q (get_double "fiducial_calibration/orientation/x") in
  let init_qy := after_Get 0%Q (get_double "fiducial_calibration/orientation/y") in
  let init_qz := after_Get 0%Q (get_double "fiducial_calibration/orientation/z") in
  let init_qw := after_Get 1%Q (get_double "fiducial_calibration/orientation/w") in
  let m1 := QuatToR (Q2R init_qw) (Q2R init_qx) (Q2R init_qy) (Q2R init_qz) in
  mkTransform3 (mkVec3 (Q2R init_x) (Q2R init_y) (Q2R init_z))
    (Rot3 (Roll m1) (Pitch m1) (Yaw m1)).

(** Lines 107-109: the warning is given when any of the seven fiducial
    keys is missing. *)
Definition have_fiducial : bool :=
  match get_double "fiducial_calibration/position/x",
        get_double "fiducial_calibration/position/y",
        get_double "fiducial_calibration/position/z",
        get_double "fiducial_calibration/orientation/x",
        get_double "fiducial_calibration/orientation/y",
        get_double "fiducial_calibration/orientation/z",
        get_double "fiducial_calibration/orientation/w" with
  | Some _, Some _, Some _, Some _, Some _, Some _, Some _ => true
  | _, _, _, _, _, _, _ => false
  end.

(** Lines 81-148.  A member written before a missing key is met stays
    written. *)
Definition LoadParameters (s : State) (p : Settings) : bool * State * Settings :=
  match get_string "frame_id/fixed" with
  | None => (false, s, p)
  | Some fixed =>
  let p := mkSettings fixed (odometry_frame_id_ p) (icp_tf_epsilon p)
             (icp_corr_dist p) (icp_iterations p) in
  match get_string "frame_id/odometry" with
  | None => (false, s, p)
  | Some odometry =>
  let p := mkSettings (fixed_frame_id_ p) odometry (icp_tf_epsilon p)
             (icp_corr_dist p) (icp_iterations p) in
  let s := set_integrated_estimate s initial_pose in
  match get_double "icp/tf_epsilon" with
  | None => (false, s, p)
  | Some epsilon =>
  let p := mkSettings (fixed_frame_id_ p) (odometry_frame_id_ p) epsilon
             (icp_corr_dist p) (icp_iterations p) in
  match get_double "icp/corr_dist" with
  | None => (false, s, p)
  | Some dist =>
  let p := mkSettings (fixed_frame_id_ p) (odometry_frame_id_ p) (icp_tf_epsilon p)
             dist (icp_iterations p) in
  match get_int "icp/iterations" with
  | None => (false, s, p)
  | Some iterations =>
  let p := mkSettings (fixed_frame_id_ p) (odometry_frame_id_ p) (icp_tf_epsilon p)
             (icp_corr_dist p) iterations in
  match get_bool "icp/transform_thresholding" with
  | None => (false, s, p)
  | Some thresholding =>
  let s := set_transform_thresholding s thresholding in
  match get_double "icp/max_translation" with
  | None => (false, s, p)
  | Some max_translation =>
  let s := set_max_translation s (Q2R max_translation) in
  match get_double "icp/max_rotation" with
  | None => (false, s, p)
  | Some max_rotation =>
  let s := set_max_rotation s (Q2R max_rotation) in
  match get_bool "imu/use_imu_data" with
  | None => (false, s, p)
  | Some use_imu_data =>
  let s := set_use_imu_data s use_imu_data in
  match get_bool "imu/check_imu_data" with
  | None => (false, s, p)
  | Some check_imu_data =>
  let s := set_check_imu_data s check_imu_data in
  match get_double "imu/imu_threshold" with
  | None => (false, s, p)
  | Some imu_threshold =>
  let s := set_imu_threshold s imu_threshold in
  (true, s, p)
  end end end end end end end end end end end.

(** Lines 63-79; [RegisterCallbacks] only subscribes and advertises and
    returns [true]. *)
Definition Initialize (s : State) (p : Settings) : bool * State * Settings :=
  let '(loaded, s1, p1) := LoadParameters s p in
  if negb loaded then (false, s1, p1)
  else
    (true,
     mkState
       (initialized_ s1)
       false
       (use_imu_data_ s1)
       (check_imu_data_ s1)
       (imu_threshold_ s1)
       (transform_thresholding_ s1)
       (max_translation_ s1)
       (max_rotation_ s1)
       (imu_deque_ s1)
       (imu_attitude_deque_ s1)
       (imu_first_attitude_ s1)
       (imu_previous_attitude_ s1)
       (imu_current_attitude_ s1)
       (imu_change_in_attitude_ s1)
       (query_ s1)
       (reference_ s1)
       (stamp_ s1)
       (incremental_estimate_ s1)
       (integrated_estimate_ s1),
     p1).

(** What the constructor (lines 56-59) fixes: [initialized_] is false and
    the deques are empty; the other members are not set. *)
Definition constructed (s : State) : Prop :=
  initialized_ s = false /\ imu_deque_ s = [] /\ imu_attitude_deque_ s = [].

(** The keys without which [LoadParameters] returns [false]. *)
Definition required_keys_present : bool :=
  match get_string "frame_id/fixed", get_string "frame_id/odometry",
        get_double "icp/tf_epsilon", get_double "icp/corr_dist",
        get_int "icp/iterations", get_bool "icp/transform_thresholding",
        get_double "icp/max_translation", get_double "icp/max_rotation",
        get_bool "imu/use_imu_data", get_bool "imu/check_imu_data",
        get_double "imu/imu_threshold" with
  | Some _, Some _, Some _, Some _, Some _, Some _, Some _, Some _, Some _,
    Some _, Some _ => true
  | _, _, _, _, _, _, _, _, _, _, _ => false
  end.

End Members.

Arguments PublishTimestampDifference {PointCloud Time} imu_lidar_ts_diff.
Arguments IcpAlign {PointCloud Time} source target.
Arguments PublishRpyComputed {PointCloud Time} rpy_lidar.
Arguments PublishRpyImu {PointCloud Time} rpy_imu.
Arguments WarnDiscarding {PointCloud Time} t r.
Arguments PublishPose_incremental {PointCloud Time} pose.
Arguments PublishPose_integrated {PointCloud Time} pose.
Arguments PublishPoints_query {PointCloud Time} points.
Arguments PublishPoints_reference {PointCloud Time} points.
Arguments SendTransform {PointCloud Time} pose stamp.
Arguments CallSetImuData {PointCloud Time} w x y z timestamp.
Arguments CallUpdateEstimate {PointCloud Time} points.
Arguments is_rpy_imu {PointCloud Time} e.
Arguments is_ts_diff {PointCloud Time} e.
Arguments is_icp {PointCloud Time} e.
Arguments is_set_imu {PointCloud Time} c.

Arguments sample_of_call {PointCloud Time} c.
Arguments cloud_of_call {PointCloud Time} c.
Arguments incremental_of {PointCloud Time} e.
Arguments incrementals {PointCloud Time} evs.

End PointCloudOdometry.

Import PointCloudOdometry.

(** ** A synthetic set-up

    Concrete stand-ins for the parameters, for running the model: a cloud
    is known by the millisecond of its header, time is counted in
    milliseconds and a time difference is the exact number of seconds; the
    registration returns a transform fixed in advance. *)

Module Synthetic.

Local Open Scope R_scope.

Definition stamp_of (points : Z) : Z := points.

Definition ts_diff (a b : Z) : Q := Qred ((a - b) # 1000).

Definition transpose (m : Mat3) : Mat3 :=
  mkMat3 (m00 m) (m10 m) (m20 m)
         (m01 m) (m11 m) (m21 m)
         (m02 m) (m12 m) (m22 m).

(** The inverse of a rotation without translation. *)
Definition inverse (m : Mat4) : Mat4 := set_block m (transpose (block m)).

Definition icp_align (T : Mat4) (source target : Z) : Mat4 := T.

(** Pose composition as geometry_utils has it. *)
Definition PoseUpdate (a b : Transform3) : Transform3 :=
  let t := mat3_vec (rotation a) (translation b) in
  mkTransform3
    (mkVec3 (vx (translation a) + vx t) (vy (translation a) + vy t)
            (vz (translation a) + vz t))
    (mat3_mul (rotation a) (rotation b)).

Definition ToEulerZYX (m : Mat3) : Vec3 := getRPY m.

Definition origin : Transform3 := mkTransform3 (mkVec3 0 0 0) Identity3.

(** A registration result: no rotation, half a unit along x. *)
Definition half_step : Mat4 :=
  mkMat4 Identity3 (mkVec3 (1 / 2) 0 0) (mkVec3 0 0 0) 1.

(** The object after [Initialize], with [imu_threshold_] 2,
    [max_translation_] 0.3 and [max_rotation_] 1. *)
Definition configured (use_imu_data check_imu_data transform_thresholding : bool)
  : State Z Z :=
  mkState false false use_imu_data check_imu_data 2%Q transform_thresholding
    (3 / 10) 1 [] [] Identity4 Identity4 Identity4 Identity4
    0%Z 0%Z 0%Z origin origin.

(** An initialized object holding the samples [buffer]. *)
Definition running (use_imu_data check_imu_data transform_thresholding : bool)
    (buffer : list (imu_data Z)) : State Z Z :=
  mkState true true use_imu_data check_imu_data 2%Q transform_thresholding
    (3 / 10) 1 buffer [] Identity4 Identity4 Identity4 Identity4
    0%Z 0%Z 0%Z origin origin.

(** An orientation sample: a yaw of [a] at millisecond [t]. *)
Definition yawed (a : R) (t : Z) : imu_data Z :=
  mk_imu_data (set_block Identity4 (AngleAxisZ a)) t.

Definition UpdateEstimate (T : Mat4) :=
  PointCloudOdometry.UpdateEstimate stamp_of ts_diff inverse (icp_align T)
    PoseUpdate ToEulerZYX.

Definition UpdateICP (T : Mat4) :=
  PointCloudOdometry.UpdateICP (Time := Z) (icp_align T) PoseUpdate ToEulerZYX.

Definition run (T : Mat4) :=
  PointCloudOdometry.run stamp_of ts_diff inverse (icp_align T)
    PoseUpdate ToEulerZYX.

(** Inputs with known Euler angles: an IMU delta that is a roll of a
    quarter turn (pitch and yaw 0), and a registration result that is a yaw
    of an eighth of a turn (roll and pitch 0) with half a unit along x. *)
Definition quarter_roll : Mat4 := set_block Identity4 (AngleAxisX (PI / 2)).

Definition eighth_yaw : Mat4 :=
  mkMat4 (AngleAxisZ (PI / 4)) (mkVec3 (1 / 2) 0 0) (mkVec3 0 0 0) 1.

(** An initialized object in fusion mode with the deltas [queue] waiting. *)
Definition fusing (queue : list Mat4) : State Z Z :=
  mkState true true true false 2%Q false
    (3 / 10) 1 [] queue Identity4 Identity4 Identity4 Identity4
    0%Z 0%Z 0%Z origin origin.

(** Calls that lead to these inputs: a level orientation sample, the first
    cloud, a sample rolled by a quarter turn (as a unit quaternion), the
    second cloud. *)
Definition rolling_over : list (call Z Z) :=
  [CallSetImuData 1 0 0 0 0%Z;
   CallUpdateEstimate 50%Z;
   CallSetImuData (cos (PI / 4)) (sin (PI / 4)) 0 0 100%Z;
   CallUpdateEstimate 150%Z].

(** 101 orientation samples, one per millisecond. *)
Definition hundred_and_one : list (R * R * R * R * Z) :=
  map (fun n => (1, 0, 0, 0, Z.of_nat n)) (seq 0 101).

(** One orientation sample, then three clouds: the first cloud initializes,
    the other two run a cycle each. *)
Definition three_clouds : list (call Z Z) :=
  [CallSetImuData 1 0 0 0 0%Z; CallUpdateEstimate 50%Z; CallUpdateEstimate 150%Z;
   CallUpdateEstimate 250%Z].

End Synthetic.

(** [a] comes right before [b] in [l]. *)
Definition consecutive (A : Type) (a b : A) (l : list A) : Prop :=
  exists l1 l2 : list A, l = l1 ++ a :: b :: l2.

(** ** Rotation matrices *)

Definition det3 (m : Mat3) : R :=
  (m00 m * (m11 m * m22 m - m12 m * m21 m)
   - m01 m * (m10 m * m22 m - m12 m * m20 m)
   + m02 m * (m10 m * m21 m - m11 m * m20 m))%R.

(** [m] is orthogonal with determinant 1. *)
Definition is_rotation (m : Mat3) : Prop :=
  mat3_mul m (Synthetic.transpose m) = Identity3 /\ det3 m = 1%R.

(** The quaternion of a call of [SetImuData] has norm 1. *)
Definition unit_call (PointCloud Time : Type) (c : call PointCloud Time) : Prop :=
  match c with
  | CallSetImuData w x y z _ => (w * w + x * x + y * y + z * z = 1)%R
  | CallUpdateEstimate _ => True
  end.

(** The attitude of a sample is a rotation without translation. *)
Definition attitude_is_rotation (Time : Type) (e : imu_data Time) : Prop :=
  is_rotation (block (internal_imu_attitude_ e))
  /\ col3 (internal_imu_attitude_ e) = mkVec3 0 0 0
  /\ row3 (internal_imu_attitude_ e) = mkVec3 0 0 0
  /\ m33 (internal_imu_attitude_ e) = 1%R.

(** ** More of the synthetic set-up *)

Module Trials.

Local Open Scope R_scope.

(** Two orientation samples and no cloud. *)
Definition two_samples : list (call Z Z) :=
  [CallSetImuData 1 0 0 0 0%Z;
   CallSetImuData (cos (PI / 4)) (sin (PI / 4)) 0 0 100%Z].

(** Two clouds and no orientation sample. *)
Definition two_clouds : list (call Z Z) :=
  [CallUpdateEstimate 0%Z; CallUpdateEstimate 100%Z].

(** A parameter server as lists of keys and values. *)
Fixpoint find_key (A : Type) (l : list (string * A)) (k : string) : option A :=
  match l with
  | [] => None
  | (k', v) :: l' => if String.eqb k k' then Some v else find_key l' k
  end.

Definition get_string : string -> option string :=
  find_key [("frame_id/fixed", "world"); ("frame_id/odometry", "odom")]%string.

(** Of the fiducial keys only the x position is there. *)
Definition get_double : string -> option Q :=
  find_key [("fiducial_calibration/position/x"%string, 2%Q);
            ("icp/tf_epsilon"%string, (1 # 1000)%Q);
            ("icp/corr_dist"%string, 1%Q);
            ("icp/max_translation"%string, (3 # 10)%Q);
            ("icp/max_rotation"%string, 1%Q);
            ("imu/imu_threshold"%string, 2%Q)].

Definition get_bool : string -> option bool :=
  find_key [("icp/transform_thresholding"%string, true);
            ("imu/use_imu_data"%string, true);
            ("imu/check_imu_data"%string, false)].

Definition get_int : string -> option Z :=
  find_key [("icp/iterations"%string, 10%Z)].

(** Stand-ins for geometry_utils: fixed-axis angles. *)
Definition Roll (m : Mat3) : R := vx (getRPY m).
Definition Pitch (m : Mat3) : R := vy (getRPY m).
Definition Yaw (m : Mat3) : R := vz (getRPY m).
Definition Rot3 (roll pitch yaw : R) : Mat3 :=
  mat3_mul (AngleAxisZ yaw) (mat3_mul (AngleAxisY pitch) (AngleAxisX roll)).

Definition LoadParameters :=
  @LoadParameters Z Z get_string get_double get_bool get_int
    toRotationMatrix Roll Pitch Yaw Rot3.

Definition Initialize :=
  @Initialize Z Z get_string get_double get_bool get_int
    toRotationMatrix Roll Pitch Yaw Rot3.

Definition no_settings : Settings := mkSettings "" "" 0 0 0.

End Trials.

(** * Properties *)

Section Properties.

Variable PointCloud : Type.
Variable Time : Type.
Variable stamp_of : PointCloud -> Time.
Variable ts_diff : Time -> Time -> Q.
Variable inverse : Mat4 -> Mat4.
Variable icp_align : PointCloud -> PointCloud -> Mat4.
Variable PoseUpdate : Transform3 -> Transform3 -> Transform3.
Variable ToEulerZYX : Mat3 -> Vec3.

Local Abbreviation State := (State PointCloud Time).
Local Abbreviation imu_data := (imu_data Time).
Local Abbreviation event := (event PointCloud Time).
Local Abbreviation call := (call PointCloud Time).
Local Abbreviation UpdateEstimate :=
  (UpdateEstimate stamp_of ts_diff inverse icp_align PoseUpdate ToEulerZYX).
Local Abbreviation UpdateICP := (UpdateICP icp_align PoseUpdate ToEulerZYX).
Local Abbreviation run := (run stamp_of ts_diff inverse icp_align PoseUpdate ToEulerZYX).
Local Abbreviation ingest := (@ingest PointCloud Time).
Local Abbreviation sample_of := (@sample_of Time).
Local Abbreviation push_imu := (@push_imu Time).
Local Abbreviation delta_of := (delta_of ts_diff).
Local Abbreviation eligible := (eligible ts_diff).
Local Abbreviation first_closest := (first_closest ts_diff).
Local Abbreviation integrate := (integrate PoseUpdate ToEulerZYX).
Local Abbreviation small_enough := (small_enough ToEulerZYX).
Local Abbreviation before_icp := (before_icp stamp_of inverse).
Local Abbreviation first_cloud := (first_cloud stamp_of).
Local Abbreviation fuse := (@fuse PointCloud Time).
Local Abbreviation do_call :=
  (do_call stamp_of ts_diff inverse icp_align PoseUpdate ToEulerZYX).

(** ** The attitude buffer *)

Lemma push_imu_length (buf : list imu_data) (d : imu_data) :
  (length buf <= imu_deque_capacity)%nat ->
  (length (push_imu buf d) <= imu_deque_capacity)%nat.
Proof.
  unfold push_imu, imu_deque_capacity. intros Hle.
  destruct (Nat.eqb_spec (length buf) 100) as [E | NE].
  - destruct buf as [| b buf']; simpl in *; [discriminate |].
    rewrite length_app. simpl. lia.
  - rewrite length_app. simpl. lia.
Qed.

(** Pushing [l] onto a buffer within capacity leaves the last 100 entries
    of the old contents followed by [l]. *)
Lemma push_imu_all (l : list imu_data) :
  forall buf : list imu_data,
    (length buf <= imu_deque_capacity)%nat ->
    fold_left push_imu l buf
    = skipn (length buf + length l - imu_deque_capacity) (buf ++ l).
Proof.
  unfold imu_deque_capacity.
  induction l as [| x l IH]; intros buf Hle.
  - simpl. rewrite app_nil_r.
    replace (length buf + 0 - 100)%nat with 0%nat by lia. reflexivity.
  - simpl fold_left. rewrite IH by (apply push_imu_length; exact Hle).
    unfold push_imu, imu_deque_capacity.
    destruct (Nat.eqb_spec (length buf) 100) as [E | NE].
    + destruct buf as [| b buf']; simpl in E; [discriminate |].
      simpl tl. rewrite length_app. simpl length.
      rewrite <- app_assoc. simpl app.
      replace (length buf' + 1 + length l - 100)%nat with (length l) by lia.
      replace (S (length buf') + S (length l) - 100)%nat with (S (length l)) by lia.
      reflexivity.
    + rewrite length_app. simpl length.
      rewrite <- app_assoc. simpl app.
      f_equal. lia.
Qed.

Lemma ingest_all_deque (qs : list (R * R * R * R * Time)) :
  forall s : State,
    imu_deque_ (fold_left ingest qs s)
    = fold_left push_imu (map sample_of qs) (imu_deque_ s).
Proof.
  induction qs as [| q qs IH]; intros s; simpl; [reflexivity |].
  rewrite IH. destruct q as [[[[w x] y] z] t]. reflexivity.
Qed.

(** C7: [SetImuData] is total; starting from an empty [imu_deque_], after
    any sequence of calls the deque holds at most 100 samples, namely the
    last [min 100 n] of the [n] samples pushed, oldest first. *)
Theorem C7_attitude_buffer_keeps_last_100 :
  forall (s : State) (qs : list (R * R * R * R * Time)),
    imu_deque_ s = [] ->
    (length (imu_deque_ (fold_left ingest qs s)) <= 100)%nat
    /\ length (imu_deque_ (fold_left ingest qs s)) = Nat.min 100 (length qs)
    /\ imu_deque_ (fold_left ingest qs s)
       = skipn (length qs - 100) (map sample_of qs).
Proof.
  intros s qs Hempty.
  assert (E : imu_deque_ (fold_left ingest qs s)
              = skipn (length qs - 100) (map sample_of qs)).
  { rewrite ingest_all_deque, Hempty.
    rewrite push_imu_all by (simpl; unfold imu_deque_capacity; lia).
    simpl. rewrite length_map. reflexivity. }
  assert (L : length (imu_deque_ (fold_left ingest qs s)) = Nat.min 100 (length qs)).
  { rewrite E, length_skipn, length_map. lia. }
  repeat split; [lia | exact L | exact E].
Qed.

(** ** The timestamp matcher *)

Lemma Qltb_lt (x y : Q) : Qltb x y = true <-> (x < y)%Q.
Proof.
  unfold Qltb. rewrite negb_true_iff. split.
  - intros H. apply Qnot_le_lt. intros Hle.
    apply Qle_bool_iff in Hle. congruence.
  - intros H. destruct (Qle_bool y x) eqn:E; [| reflexivity].
    apply Qle_bool_iff in E. exfalso. apply (Qlt_not_le _ _ H E).
Qed.

Lemma Qabs_of_negative (x : Q) : (x < 0)%Q -> (Qabs x == - x)%Q.
Proof. intros H. apply Qabs_neg. apply Qlt_le_weak. exact H. Qed.

(** Against the initial [min_ts_diff] a negative difference wins when it
    is above -1000. *)
Lemma closer_than_sentinel (c : Q) :
  (c < 0)%Q -> ((Qabs c < Qabs no_match_ts_diff)%Q <-> (- (1000) < c)%Q).
Proof.
  intros Hc. rewrite (Qabs_of_negative Hc).
  assert (E : (Qabs no_match_ts_diff == 1000)%Q) by reflexivity.
  rewrite E. split; intros H; Lqa.lra.
Qed.

(** Against an earlier negative difference a negative difference wins when
    it is the larger one. *)
Lemma closer_than_negative (c m : Q) :
  (c < 0)%Q -> (m < 0)%Q -> ((Qabs c < Qabs m)%Q <-> (m < c)%Q).
Proof.
  intros Hc Hm. rewrite (Qabs_of_negative Hc), (Qabs_of_negative Hm).
  split; intros H; Lqa.lra.
Qed.

Lemma match_step_sentinel (stamp : Time) (a : Mat4) (e : imu_data) :
  (eligible stamp e
   /\ match_step ts_diff stamp (a, no_match_ts_diff) e
      = (internal_imu_attitude_ e, delta_of stamp e))
  \/ (~ eligible stamp e
      /\ match_step ts_diff stamp (a, no_match_ts_diff) e = (a, no_match_ts_diff)).
Proof.
  unfold match_step, eligible, delta_of. simpl snd.
  set (c := ts_diff (internal_imu_attitude_timestamp_ e) stamp).
  destruct (Qltb c 0) eqn:E1; cbn [andb].
  - apply Qltb_lt in E1.
    destruct (Qltb (Qabs c) (Qabs no_match_ts_diff)) eqn:E2.
    + apply Qltb_lt in E2. apply (closer_than_sentinel E1) in E2.
      left. repeat split; first [assumption | reflexivity].
    + right. split; [| reflexivity]. intros [H1 H2].
      apply (closer_than_sentinel E1) in H1. apply Qltb_lt in H1. congruence.
  - right. split; [| reflexivity]. intros [H1 H2].
    apply Qltb_lt in H2. congruence.
Qed.

Lemma match_step_negative (stamp : Time) (a : Mat4) (m : Q) (e : imu_data) :
  (m < 0)%Q ->
  ((m < delta_of stamp e)%Q /\ (delta_of stamp e < 0)%Q
   /\ match_step ts_diff stamp (a, m) e
      = (internal_imu_attitude_ e, delta_of stamp e))
  \/ (((delta_of stamp e <= m)%Q \/ (0 <= delta_of stamp e)%Q)
      /\ match_step ts_diff stamp (a, m) e = (a, m)).
Proof.
  intros Hm. unfold match_step, delta_of. simpl snd.
  set (c := ts_diff (internal_imu_attitude_timestamp_ e) stamp).
  destruct (Qltb c 0) eqn:E1; cbn [andb].
  - apply Qltb_lt in E1.
    destruct (Qltb (Qabs c) (Qabs m)) eqn:E2.
    + apply Qltb_lt in E2. apply (closer_than_negative E1 Hm) in E2.
      left. repeat split; first [assumption | reflexivity].
    + right. split; [| reflexivity]. left.
      apply Qnot_lt_le. intros H.
      apply (closer_than_negative E1 Hm) in H. apply Qltb_lt in H. congruence.
  - right. split; [| reflexivity]. right.
    apply Qnot_lt_le. intros H. apply Qltb_lt in H. congruence.
Qed.

Lemma nth_error_snoc (A : Type) (l : list A) (x : A) (j : nat) (y : A) :
  nth_error (l ++ [x]) j = Some y ->
  ((j < length l)%nat /\ nth_error l j = Some y) \/ (j = length l /\ y = x).
Proof.
  intros H. destruct (Nat.lt_ge_cases j (length l)) as [Hlt | Hge].
  - left. split; [exact Hlt |]. rewrite nth_error_app1 in H; assumption.
  - right. rewrite nth_error_app2 in H by exact Hge.
    destruct (j - length l)%nat as [| k] eqn:E; simpl in H.
    + split; [lia | congruence].
    + destruct k; discriminate.
Qed.

Lemma nth_error_snoc_last (A : Type) (l : list A) (x : A) :
  nth_error (l ++ [x]) (length l) = Some x.
Proof. rewrite nth_error_app2, Nat.sub_diag by lia. reflexivity. Qed.

(** The loop of lines 238-245 over any prefix of the deque: either no
    sample was eligible and the initial pair is intact, or the pair is that
    of the first closest eligible sample. *)
Lemma match_loop (stamp : Time) (a : Mat4) (l : list imu_data) :
  (Forall (fun e => ~ eligible stamp e) l
   /\ fold_left (match_step ts_diff stamp) l (a, no_match_ts_diff)
      = (a, no_match_ts_diff))
  \/ (exists i e,
        first_closest stamp l i e
        /\ fold_left (match_step ts_diff stamp) l (a, no_match_ts_diff)
           = (internal_imu_attitude_ e, delta_of stamp e)).
Proof.
  induction l as [| x l IH] using rev_ind.
  - left. split; [constructor | reflexivity].
  - rewrite fold_left_app. simpl fold_left.
    destruct IH as [[Hnone Hacc] | [i [e [[Hi [Hel [Hmax Hfirst]]] Hacc]]]];
      rewrite Hacc.
    + destruct (match_step_sentinel stamp a x) as [[Hx Hs] | [Hx Hs]]; rewrite Hs.
      * right. exists (length l), x. split; [| reflexivity].
        split; [apply nth_error_snoc_last |]. split; [exact Hx |]. split.
        -- intros j e' Hj He'. apply nth_error_snoc in Hj.
           destruct Hj as [[_ Hj] | [_ ->]]; [| apply Qle_refl].
           exfalso. apply nth_error_In in Hj.
           rewrite Forall_forall in Hnone. exact (Hnone _ Hj He').
        -- intros j e' Hlt Hj He'. apply nth_error_snoc in Hj.
           destruct Hj as [[_ Hj] | [Hj _]]; [| lia].
           exfalso. apply nth_error_In in Hj.
           rewrite Forall_forall in Hnone. exact (Hnone _ Hj He').
      * left. split; [| reflexivity].
        apply Forall_app. split; [exact Hnone |]. constructor; [exact Hx | constructor].
    + assert (Hneg : (delta_of stamp e < 0)%Q) by (destruct Hel; assumption).
      assert (Hilt : (i < length l)%nat)
        by (apply nth_error_Some; rewrite Hi; discriminate).
      destruct (match_step_negative stamp (internal_imu_attitude_ e) x Hneg)
        as [[Hgt [Hx0 Hs]] | [Hle Hs]]; rewrite Hs.
      * right. exists (length l), x. split; [| reflexivity].
        split; [apply nth_error_snoc_last |]. split.
        { destruct Hel as [Hlow _]. split; [Lqa.lra | exact Hx0]. }
        split.
        -- intros j e' Hj He'. apply nth_error_snoc in Hj.
           destruct Hj as [[_ Hj] | [_ ->]]; [| apply Qle_refl].
           specialize (Hmax _ _ Hj He'). Lqa.lra.
        -- intros j e' Hlt Hj He'. apply nth_error_snoc in Hj.
           destruct Hj as [[_ Hj] | [Hj _]]; [| lia].
           specialize (Hmax _ _ Hj He'). Lqa.lra.
      * right. exists i, e. split; [| reflexivity].
        split; [rewrite nth_error_app1; assumption |]. split; [exact Hel |]. split.
        -- intros j e' Hj He'. apply nth_error_snoc in Hj.
           destruct Hj as [[_ Hj] | [_ ->]]; [exact (Hmax _ _ Hj He') |].
           destruct He' as [_ Hx0]. destruct Hle as [Hle | Hle]; [exact Hle | Lqa.lra].
        -- intros j e' Hlt Hj He'. apply nth_error_snoc in Hj.
           destruct Hj as [[_ Hj] | [Hj _]]; [exact (Hfirst _ _ Hlt Hj He') | lia].
Qed.

(** On a non-empty copy the matcher returns. *)
Lemma findAligned_returns (stamp : Time) (e0 : imu_data) (rest : list imu_data) :
  exists (att : Mat4) (d : Q), findAligned ts_diff (e0 :: rest) stamp = Ok (att, d).
Proof.
  unfold findAligned.
  destruct (fold_left (match_step ts_diff stamp) (e0 :: rest)
              (internal_imu_attitude_ e0, no_match_ts_diff)) as [att d].
  exists att, d. reflexivity.
Qed.

(** C2, as the code has it: on a non-empty snapshot the matcher returns;
    when some sample is strictly earlier than the scan by less than 1000 it
    returns the attitude and the difference of the first such sample whose
    difference is closest to zero, so never a sample at or after the scan;
    when there is none it returns the attitude of element 0, whatever its
    difference, with the initial 1000. *)
Theorem C2_findAligned_closest_strictly_earlier :
  forall (stamp : Time) (e0 : imu_data) (rest : list imu_data),
  exists (att : Mat4) (d : Q),
    findAligned ts_diff (e0 :: rest) stamp = Ok (att, d)
    /\ ((Forall (fun e => ~ eligible stamp e) (e0 :: rest)
         /\ att = internal_imu_attitude_ e0 /\ d = no_match_ts_diff)
        \/ (exists i e,
              first_closest stamp (e0 :: rest) i e
              /\ att = internal_imu_attitude_ e /\ d = delta_of stamp e
              /\ (- (1000) < d)%Q /\ (d < 0)%Q)).
Proof.
  intros stamp e0 rest. unfold findAligned.
  destruct (match_loop stamp (internal_imu_attitude_ e0) (e0 :: rest))
    as [[Hnone Hacc] | [i [e [Hbest Hacc]]]]; rewrite Hacc.
  - exists (internal_imu_attitude_ e0), no_match_ts_diff.
    split; [reflexivity |]. left. repeat split. exact Hnone.
  - exists (internal_imu_attitude_ e), (delta_of stamp e).
    split; [reflexivity |]. right. exists i, e.
    destruct Hbest as [Hi [[Hlow Hneg] Hrest]].
    repeat split; try assumption; apply Hrest.
Qed.

(** ** One cycle, step by step *)

Lemma fuse_disabled (T : Mat4) (q : list Mat4) : fuse false T q = Ok (T, q, []).
Proof. reflexivity. Qed.

Lemma fuse_enabled (T d : Mat4) (q : list Mat4) :
  fuse true T (d :: q)
  = Ok (set_block T
          (OUTPUT_ROTATION (vx (getRPY (block d))) (vy (getRPY (block d)))
             (vz (getRPY (block T)))),
        q,
        [PublishRpyComputed (getRPY (block T)); PublishRpyImu (getRPY (block d))]).
Proof. reflexivity. Qed.

(** After line 257 the delta queue ends with the delta of this cycle, so
    the fusion finds a front element. *)
Lemma fuse_after_push (use : bool) (T : Mat4) (q : list Mat4) (d : Mat4) :
  exists (T' : Mat4) (diag : list event),
    fuse use T (q ++ [d]) = Ok (T', (if use then tl (q ++ [d]) else q ++ [d]), diag)
    /\ col3 T' = col3 T
    /\ consumed diag = (if use then 1 else 0)%nat
    /\ produced diag = 0%nat
    /\ filter (@is_icp PointCloud Time) diag = []
    /\ (use = false -> T' = T /\ diag = []).
Proof.
  destruct use.
  - destruct (q ++ [d]) as [| h t] eqn:E.
    + destruct q; discriminate.
    + rewrite fuse_enabled. eexists _, _. split; [reflexivity |].
      repeat split; discriminate.
  - rewrite fuse_disabled. eexists _, _. split; [reflexivity |].
    repeat split; reflexivity.
Qed.

(** The cycle of an initialized object on a non-empty buffer: matcher,
    delta, mode, fusion, pose update; it returns [true]. *)
Lemma cycle_steps (s : State) (points : PointCloud) :
  initialized_ s = true ->
  imu_deque_ s <> [] ->
  exists (cur : Mat4) (d : Q) (T : Mat4) (diag : list event) (s' : State)
         (evs : list event),
    let s1 := before_icp s points cur d in
    let delta := mat4_mul cur (inverse (imu_previous_attitude_ s)) in
    findAligned ts_diff (imu_deque_ s) (stamp_of points) = Ok (cur, d)
    /\ fuse (use_imu_data_ s1) (icp_align points (query_ s))
         (imu_attitude_deque_ s ++ [delta])
       = Ok (T,
             (if use_imu_data_ s1 then tl (imu_attitude_deque_ s ++ [delta])
              else imu_attitude_deque_ s ++ [delta]),
             diag)
    /\ integrate s1 T
         (if use_imu_data_ s1 then tl (imu_attitude_deque_ s ++ [delta])
          else imu_attitude_deque_ s ++ [delta])
         diag
       = (true, s', evs)
    /\ UpdateEstimate s points = Ok (true, s', PublishTimestampDifference d :: evs).
Proof.
  intros Hinit Hne.
  destruct (imu_deque_ s) as [| e0 rest] eqn:Hdeque; [congruence |].
  destruct (findAligned_returns (stamp_of points) e0 rest)
    as [cur [d Hfind]].
  set (delta := mat4_mul cur (inverse (imu_previous_attitude_ s))).
  destruct (fuse_after_push
              (use_imu_data_ (before_icp s points cur d))
              (icp_align points (query_ s)) (imu_attitude_deque_ s) delta)
    as [T [diag [Hfuse _]]].
  exists cur, d, T, diag. eexists _, _. cbv zeta.
  split; [exact Hfind |]. split; [exact Hfuse |]. split; [reflexivity |].
  unfold PointCloudOdometry.UpdateEstimate. rewrite Hinit, Hdeque. cbn [negb].
  rewrite Hfind. unfold PointCloudOdometry.UpdateICP.
  change (query_ (before_icp s points cur d)) with points.
  change (reference_ (before_icp s points cur d)) with (query_ s).
  change (imu_attitude_deque_ (before_icp s points cur d))
    with (imu_attitude_deque_ s ++ [delta]).
  rewrite Hfuse. reflexivity.
Qed.

(** Membership of an event in a list of events built with [++]. *)
Ltac in_events :=
  cbn [app];
  solve [repeat first [left; reflexivity | right; cbn [app] | apply in_or_app; right]].

Lemma Ok_inj (A : Type) (a b : A) : Ok a = Ok b -> a = b.
Proof. intros H. injection H as H. exact H. Qed.

(** Reading the results of [integrate] and [UpdateICP] off their
    definitions. *)
Ltac open_integrate H :=
  unfold PointCloudOdometry.integrate in H;
  let Hr := fresh "Hr" in
  let Hs := fresh "Hs" in
  let He := fresh "He" in
  apply pair_equal_spec in H; destruct H as [H He];
  apply pair_equal_spec in H; destruct H as [Hr Hs];
  subst; try clear Hr.

Ltac open_UpdateICP H :=
  unfold PointCloudOdometry.UpdateICP in H;
  match type of H with
  | context [@PointCloudOdometry.fuse ?P ?Tm ?u ?T ?q] =>
      let T' := fresh "T'" in
      let q' := fresh "q'" in
      let diag := fresh "diag" in
      let Hfuse := fresh "Hfuse" in
      destruct (@PointCloudOdometry.fuse P Tm u T q)
        as [[[T' q'] diag] |] eqn:Hfuse;
      [| discriminate H];
      apply Ok_inj in H; open_integrate H
  end.

(** ** The mode check *)

Lemma Rleb_le (x y : R) : Rleb x y = true <-> (x <= y)%R.
Proof. unfold Rleb. destruct (Rle_dec x y); split; intros; congruence. Qed.

Lemma decideMode_checked (use : bool) (d : Q) :
  decideMode true use d = true <-> (Qabs d < max_ts_diff)%Q.
Proof. unfold decideMode. rewrite Qltb_lt. reflexivity. Qed.

(** C5, as the code has it: with [check_imu_data_] set, a cycle leaves
    [use_imu_data_] true exactly when the absolute value of the matcher's
    difference is strictly below the constant [max_ts_diff] of line 261,
    the float 0.05, and false otherwise; [imu_threshold_] plays no part.
    With [check_imu_data_] unset [use_imu_data_] keeps its value. *)
Theorem C5_mode_check_uses_fixed_threshold :
  forall (s : State) (points : PointCloud),
    initialized_ s = true ->
    imu_deque_ s <> [] ->
    exists (cur : Mat4) (d : Q) (s' : State) (evs : list event),
      findAligned ts_diff (imu_deque_ s) (stamp_of points) = Ok (cur, d)
      /\ UpdateEstimate s points = Ok (true, s', evs)
      /\ use_imu_data_ s' = decideMode (check_imu_data_ s) (use_imu_data_ s) d
      /\ (check_imu_data_ s = true ->
          (use_imu_data_ s' = true <-> (Qabs d < max_ts_diff)%Q)
          /\ (use_imu_data_ s' = false <-> (max_ts_diff <= Qabs d)%Q))
      /\ (check_imu_data_ s = false -> use_imu_data_ s' = use_imu_data_ s)
      /\ (max_ts_diff == 13421773 # 268435456)%Q.
Proof.
  intros s points Hinit Hne.
  destruct (cycle_steps s points Hinit Hne)
    as [cur [d [T [diag [s' [evs [Hfind [_ [Hint Hrun]]]]]]]]].
  exists cur, d, s', (PublishTimestampDifference d :: evs).
  split; [exact Hfind |]. split; [exact Hrun |].
  open_integrate Hint. cbn [use_imu_data_ before_icp].
  split; [reflexivity |]. split; [| split].
  - intros Hcheck. rewrite Hcheck. split.
    + apply decideMode_checked.
    + rewrite <- not_true_iff_false, decideMode_checked. split.
      * apply Qnot_lt_le.
      * intros Hle Hlt. exact (Qlt_not_le _ _ Hlt Hle).
  - intros Hcheck. rewrite Hcheck. reflexivity.
  - reflexivity.
Qed.

(** ** The gate of the pose update *)

Lemma small_enough_disabled (max_t max_r : R) (t : Transform3) :
  small_enough false max_t max_r t = true.
Proof. reflexivity. Qed.

Lemma small_enough_enabled (max_t max_r : R) (t : Transform3) :
  small_enough true max_t max_r t = true
  <-> (Norm (translation t) <= max_t)%R
      /\ (Norm (ToEulerZYX (rotation t)) <= max_r)%R.
Proof.
  unfold PointCloudOdometry.small_enough. cbn [negb orb].
  rewrite andb_true_iff, !Rleb_le. reflexivity.
Qed.

(** C3: [UpdateICP] composes the incremental transform onto the integrated
    estimate exactly when the condition of lines 394-396 holds.  With
    [transform_thresholding_] unset it always holds; with it set it holds
    if and only if the translation norm is at most [max_translation_] and
    the norm of the Euler angles is at most [max_rotation_].  Both bounds
    are inclusive: norms equal to the bounds pass, and a norm above its
    bound by any positive amount fails. *)
Theorem C3_gate_inclusive_thresholds :
  forall (s : State) (r : bool) (s' : State) (evs : list event),
    UpdateICP s = Ok (r, s', evs) ->
    let T' := incremental_estimate_ s' in
    let tn := Norm (translation T') in
    let rn := Norm (ToEulerZYX (rotation T')) in
    let accepted :=
      small_enough (transform_thresholding_ s) (max_translation_ s)
        (max_rotation_ s) T' in
    integrated_estimate_ s'
    = (if accepted then PoseUpdate (integrated_estimate_ s) T'
       else integrated_estimate_ s)
    /\ (transform_thresholding_ s = false -> accepted = true)
    /\ (transform_thresholding_ s = true ->
        (accepted = true
         <-> (tn <= max_translation_ s)%R /\ (rn <= max_rotation_ s)%R))
    /\ (tn = max_translation_ s -> rn = max_rotation_ s -> accepted = true)
    /\ (forall eps : R,
          (0 < eps)%R ->
          transform_thresholding_ s = true ->
          tn = (max_translation_ s + eps)%R \/ rn = (max_rotation_ s + eps)%R ->
          accepted = false).
Proof.
  intros s r s' evs H. open_UpdateICP H.
  cbn [incremental_estimate_ integrated_estimate_]. cbv zeta.
  set (T := to_Transform3 T').
  split; [reflexivity |]. split; [| split; [| split]].
  - intros ->. apply small_enough_disabled.
  - intros ->. apply small_enough_enabled.
  - intros Ht Hr. destruct (transform_thresholding_ s).
    + apply small_enough_enabled. rewrite Ht, Hr. split; apply Rle_refl.
    + apply small_enough_disabled.
  - intros eps Heps -> Hover. apply not_true_iff_false.
    rewrite small_enough_enabled. intros [Ht Hr].
    destruct Hover as [E | E]; rewrite E in *; Lra.lra.
Qed.

(** C4: a cycle whose transform fails the gate leaves [integrated_estimate_]
    as it was, while the transform is stored in [incremental_estimate_],
    returned by [GetIncrementalEstimate] and handed to [PublishPose]; the
    call still returns [true]. *)
Theorem C4_rejected_transform_still_reported :
  forall (s : State) (points : PointCloud),
    initialized_ s = true ->
    imu_deque_ s <> [] ->
    exists (cur : Mat4) (d : Q) (T : Mat4) (q : list Mat4) (diag : list event)
           (s' : State) (evs : list event),
      findAligned ts_diff (imu_deque_ s) (stamp_of points) = Ok (cur, d)
      /\ fuse (decideMode (check_imu_data_ s) (use_imu_data_ s) d)
           (icp_align points (query_ s))
           (imu_attitude_deque_ s
            ++ [mat4_mul cur (inverse (imu_previous_attitude_ s))])
         = Ok (T, q, diag)
      /\ UpdateEstimate s points = Ok (true, s', evs)
      /\ incremental_estimate_ s' = to_Transform3 T
      /\ GetIncrementalEstimate s' = to_Transform3 T
      /\ In (PublishPose_incremental (to_Transform3 T)) evs
      /\ (small_enough (transform_thresholding_ s) (max_translation_ s)
            (max_rotation_ s) (to_Transform3 T) = false ->
          integrated_estimate_ s' = integrated_estimate_ s
          /\ GetIntegratedEstimate s' = integrated_estimate_ s
          /\ In (PublishPose_integrated (integrated_estimate_ s)) evs
          /\ In (WarnDiscarding (Norm (translation (to_Transform3 T)))
                   (Norm (ToEulerZYX (rotation (to_Transform3 T))))) evs).
Proof.
  intros s points Hinit Hne.
  destruct (cycle_steps s points Hinit Hne)
    as [cur [d [T [diag [s' [evs [Hfind [Hfuse [Hint Hrun]]]]]]]]].
  cbv zeta in Hfuse, Hint.
  exists cur, d, T. eexists. exists diag, s', (PublishTimestampDifference d :: evs).
  split; [exact Hfind |]. split; [exact Hfuse |]. split; [exact Hrun |].
  open_integrate Hint.
  cbn [incremental_estimate_ integrated_estimate_ GetIncrementalEstimate
       GetIntegratedEstimate transform_thresholding_ max_translation_
       max_rotation_ before_icp].
  split; [reflexivity |]. split; [reflexivity |]. split.
  - in_events.
  - intros Hrej. rewrite Hrej.
    split; [reflexivity |]. split; [reflexivity |]. split.
    + in_events.
    + in_events.
Qed.

(** ** Fusion switched off *)

(** The code has no test for an empty delta queue: entered with
    [use_imu_data_] set and nothing queued, [UpdateICP] calls [front] on
    an empty deque. *)
Lemma UpdateICP_front_of_empty_queue (s : State) :
  use_imu_data_ s = true ->
  imu_attitude_deque_ s = [] ->
  UpdateICP s = OutOfRange.
Proof.
  intros Huse Hq. unfold PointCloudOdometry.UpdateICP.
  rewrite Huse, Hq. reflexivity.
Qed.

(** C8: in a cycle that ends with [use_imu_data_] false the incremental
    estimate is the registration transform as [icp_align] returned it, no
    delta is consumed and the call returns [true].  The delta queue is
    never empty when [UpdateICP] reads it, because line 257 has just
    appended this cycle's delta; so a cycle without an available delta does
    not occur, and the statement holds for it as well. *)
Theorem C8_fusion_off_keeps_registration_transform :
  forall (s : State) (points : PointCloud),
    initialized_ s = true ->
    imu_deque_ s <> [] ->
    exists (cur : Mat4) (d : Q) (s' : State) (evs : list event),
      let at_consumption :=
        imu_attitude_deque_ s
        ++ [mat4_mul cur (inverse (imu_previous_attitude_ s))] in
      findAligned ts_diff (imu_deque_ s) (stamp_of points) = Ok (cur, d)
      /\ UpdateEstimate s points = Ok (true, s', evs)
      /\ use_imu_data_ s' = decideMode (check_imu_data_ s) (use_imu_data_ s) d
      /\ at_consumption <> []
      /\ (use_imu_data_ s' = false \/ at_consumption = [] ->
          incremental_estimate_ s' = to_Transform3 (icp_align points (query_ s))
          /\ In (PublishPose_incremental
                   (to_Transform3 (icp_align points (query_ s)))) evs
          /\ imu_attitude_deque_ s' = at_consumption
          /\ consumed evs = 0%nat).
Proof.
  intros s points Hinit Hne.
  destruct (cycle_steps s points Hinit Hne)
    as [cur [d [T [diag [s' [evs [Hfind [Hfuse [Hint Hrun]]]]]]]]].
  cbv zeta in Hfuse, Hint.
  exists cur, d, s', (PublishTimestampDifference d :: evs). cbv zeta.
  split; [exact Hfind |]. split; [exact Hrun |].
  assert (Hq : imu_attitude_deque_ s
               ++ [mat4_mul cur (inverse (imu_previous_attitude_ s))] <> []).
  { destruct (imu_attitude_deque_ s); discriminate. }
  open_integrate Hint.
  cbn [use_imu_data_ incremental_estimate_ imu_attitude_deque_ before_icp] in *.
  split; [reflexivity |]. split; [exact Hq |].
  intros [Hoff | Hempty]; [| contradiction].
  rewrite Hoff in *. rewrite fuse_disabled in Hfuse.
  injection Hfuse; intros; subst.
  split; [reflexivity |]. split.
  - in_events.
  - split; [reflexivity |].
    unfold consumed. cbn [app filter is_rpy_imu].
    rewrite filter_app. destruct (small_enough _ _ _ _); reflexivity.
Qed.

(** ** What a call of [UpdateEstimate] can have done *)

Lemma UpdateEstimate_first_cloud (s : State) (points : PointCloud) :
  initialized_ s = false ->
  UpdateEstimate s points = Ok (first_cloud s points).
Proof.
  intros Hinit. unfold PointCloudOdometry.UpdateEstimate.
  rewrite Hinit. reflexivity.
Qed.

Lemma UpdateEstimate_empty_buffer (s : State) (points : PointCloud) :
  initialized_ s = true ->
  imu_deque_ s = [] ->
  UpdateEstimate s points = OutOfRange.
Proof.
  intros Hinit Hempty. unfold PointCloudOdometry.UpdateEstimate.
  rewrite Hinit, Hempty. reflexivity.
Qed.

(** The effect of a cycle on the delta queue and on the event counts. *)
Lemma cycle_balance (s : State) (points : PointCloud) (r : bool) (s' : State)
    (evs : list event) :
  initialized_ s = true ->
  UpdateEstimate s points = Ok (r, s', evs) ->
  exists (cur : Mat4) (d : Q),
    let delta := mat4_mul cur (inverse (imu_previous_attitude_ s)) in
    findAligned ts_diff (imu_deque_ s) (stamp_of points) = Ok (cur, d)
    /\ r = true
    /\ initialized_ s' = true
    /\ imu_deque_ s' = imu_deque_ s
    /\ imu_data_has_been_received_ s' = imu_data_has_been_received_ s
    /\ imu_current_attitude_ s' = cur
    /\ imu_previous_attitude_ s' = cur
    /\ produced evs = 1%nat
    /\ consumed evs = (if use_imu_data_ s' then 1 else 0)%nat
    /\ length (filter (@is_icp PointCloud Time) evs) = 1%nat
    /\ imu_attitude_deque_ s'
       = (if use_imu_data_ s' then tl (imu_attitude_deque_ s ++ [delta])
          else imu_attitude_deque_ s ++ [delta])
    /\ (use_imu_data_ s' = true ->
        In (PublishRpyImu
              (getRPY (block (hd delta (imu_attitude_deque_ s ++ [delta])))))
           evs).
Proof.
  intros Hinit H.
  destruct (imu_deque_ s) as [| e0 rest] eqn:Hdeque.
  { rewrite (UpdateEstimate_empty_buffer s points Hinit Hdeque) in H. discriminate. }
  assert (Hne : imu_deque_ s <> []) by (rewrite Hdeque; discriminate).
  destruct (cycle_steps s points Hinit Hne)
    as [cur [d [T [diag [s1 [evs1 [Hfind [Hfuse [Hint Hrun]]]]]]]]].
  cbv zeta in Hfuse, Hint. rewrite Hrun in H.
  injection H; clear H; intros; subst.
  exists cur, d. cbv zeta. rewrite <- Hdeque.
  split; [exact Hfind |]. split; [reflexivity |].
  set (delta := mat4_mul cur (inverse (imu_previous_attitude_ s))) in *.
  destruct (fuse_after_push
              (use_imu_data_ (before_icp s points cur d))
              (icp_align points (query_ s)) (imu_attitude_deque_ s) delta)
    as [T2 [diag2 [Hfuse2 [_ [Hcons [Hprod [Hicp _]]]]]]].
  rewrite Hfuse in Hfuse2. injection Hfuse2; intros; subst T2 diag2.
  open_integrate Hint.
  cbn [initialized_ imu_deque_ imu_data_has_been_received_ imu_current_attitude_
       imu_previous_attitude_ use_imu_data_ imu_attitude_deque_ before_icp] in *.
  repeat (split; [first [exact Hinit | reflexivity] |]).
  split; [| split; [| split; [| split]]].
  - unfold produced in *. cbn [app filter is_ts_diff length].
    rewrite !filter_app, !length_app, Hprod.
    destruct (small_enough _ _ _ _); reflexivity.
  - unfold consumed in *. cbn [app filter is_rpy_imu length].
    rewrite !filter_app, !length_app, Hcons.
    destruct (small_enough _ _ _ _); cbn; lia.
  - cbn [app filter is_icp length].
    rewrite !filter_app, !length_app, Hicp.
    destruct (small_enough _ _ _ _); reflexivity.
  - reflexivity.
  - intros Huse. rewrite Huse in Hfuse.
    destruct (imu_attitude_deque_ s ++ [delta]) as [| h t] eqn:E.
    { destruct (imu_attitude_deque_ s); discriminate. }
    rewrite fuse_enabled in Hfuse. injection Hfuse; intros; subst.
    cbn [hd]. in_events.
Qed.

(** ** The delta queue over sequences of calls *)

Lemma consumed_app (a b : list event) : consumed (a ++ b) = (consumed a + consumed b)%nat.
Proof. unfold consumed. rewrite filter_app, length_app. reflexivity. Qed.

Lemma produced_app (a b : list event) : produced (a ++ b) = (produced a + produced b)%nat.
Proof. unfold produced. rewrite filter_app, length_app. reflexivity. Qed.

Lemma first_cloud_quiet (s : State) (points : PointCloud) :
  exists s' : State,
    first_cloud s points = (false, s', [])
    /\ query_ s' = points
    /\ imu_deque_ s' = imu_deque_ s
    /\ imu_attitude_deque_ s' = imu_attitude_deque_ s
    /\ imu_data_has_been_received_ s' = imu_data_has_been_received_ s
    /\ use_imu_data_ s' = use_imu_data_ s
    /\ incremental_estimate_ s' = incremental_estimate_ s
    /\ integrated_estimate_ s' = integrated_estimate_ s
    /\ initialized_ s'
       = (if use_imu_data_ s then
            if imu_data_has_been_received_ s then true else initialized_ s
          else true).
Proof.
  unfold PointCloudOdometry.first_cloud.
  destruct (use_imu_data_ s) eqn:Huse;
    [destruct (imu_data_has_been_received_ s) eqn:Hrec |];
    eexists; (split; [reflexivity |]); cbn; repeat split; auto.
Qed.

Lemma do_call_balance (s : State) (c : call) (s' : State) (evs : list event) :
  do_call s c = Ok (s', evs) ->
  (length (imu_attitude_deque_ s') + consumed evs
   = length (imu_attitude_deque_ s) + produced evs)%nat.
Proof.
  destruct c as [w x y z t | points]; cbn [PointCloudOdometry.do_call].
  - intros H. injection H; intros; subst. reflexivity.
  - destruct (UpdateEstimate s points) as [[[r s1] evs1] |] eqn:E; [| discriminate].
    intros H. injection H; intros; subst.
    destruct (initialized_ s) eqn:Hinit.
    + destruct (cycle_balance s points Hinit E)
        as [cur [d [_ [_ [_ [_ [_ [_ [_ [Hp [Hc [_ [Hq _]]]]]]]]]]]]].
      cbv zeta in Hq. rewrite Hp, Hc, Hq.
      destruct (use_imu_data_ s').
      * destruct (imu_attitude_deque_ s) as [| h t]; cbn [app tl length].
        -- reflexivity.
        -- rewrite length_app. cbn [length]. lia.
      * rewrite length_app. cbn [length]. lia.
    + rewrite (UpdateEstimate_first_cloud s points Hinit) in E.
      destruct (first_cloud_quiet s points) as [s2 [Hs2 [_ [_ [Hq _]]]]].
      rewrite Hs2 in E. injection E; intros; subst.
      rewrite Hq. reflexivity.
Qed.

Lemma run_balance (cs : list call) :
  forall (s s' : State) (evs : list event),
    run s cs = Ok (s', evs) ->
    (length (imu_attitude_deque_ s') + consumed evs
     = length (imu_attitude_deque_ s) + produced evs)%nat.
Proof.
  induction cs as [| c cs IH]; intros s s' evs H; cbn [PointCloudOdometry.run] in H.
  - injection H; intros; subst. reflexivity.
  - destruct (do_call s c) as [[s1 evs1] |] eqn:E1; [| discriminate].
    destruct (run s1 cs) as [[s2 evs2] |] eqn:E2; [| discriminate].
    injection H; intros; subst.
    apply do_call_balance in E1. apply IH in E2.
    rewrite consumed_app, produced_app. lia.
Qed.

(** C9: a cycle appends exactly one delta to [imu_attitude_deque_] and
    removes at most one, the front element and only when [use_imu_data_]
    is set on entering [UpdateICP]; over any sequence of calls the deltas
    consumed never outnumber the deltas produced, the queue holding the
    difference. *)
Theorem C9_delta_queue_balance :
  (forall (s : State) (points : PointCloud) (r : bool) (s' : State)
          (evs : list event),
      initialized_ s = true ->
      UpdateEstimate s points = Ok (r, s', evs) ->
      exists (cur : Mat4) (d : Q),
        let delta := mat4_mul cur (inverse (imu_previous_attitude_ s)) in
        findAligned ts_diff (imu_deque_ s) (stamp_of points) = Ok (cur, d)
        /\ produced evs = 1%nat
        /\ consumed evs = (if use_imu_data_ s' then 1 else 0)%nat
        /\ imu_attitude_deque_ s'
           = (if use_imu_data_ s' then tl (imu_attitude_deque_ s ++ [delta])
              else imu_attitude_deque_ s ++ [delta])
        /\ (use_imu_data_ s' = true ->
            In (PublishRpyImu
                  (getRPY (block (hd delta (imu_attitude_deque_ s ++ [delta])))))
               evs))
  /\ (forall (s : State) (cs : list call) (s' : State) (evs : list event),
        run s cs = Ok (s', evs) ->
        (length (imu_attitude_deque_ s') + consumed evs
         = length (imu_attitude_deque_ s) + produced evs)%nat)
  /\ (forall (s : State) (cs : list call) (s' : State) (evs : list event),
        fresh s ->
        run s cs = Ok (s', evs) ->
        (consumed evs <= produced evs)%nat
        /\ length (imu_attitude_deque_ s') = (produced evs - consumed evs)%nat).
Proof.
  split; [| split].
  - intros s points r s' evs Hinit H.
    destruct (cycle_balance s points Hinit H)
      as [cur [d [Hfind [_ [_ [_ [_ [_ [_ [Hp [Hc [_ [Hq Hfront]]]]]]]]]]]]].
    exists cur, d. cbv zeta. repeat split; assumption.
  - intros s cs s' evs H. exact (run_balance cs s H).
  - intros s cs s' evs [_ [_ [_ Hq]]] H.
    apply run_balance in H. rewrite Hq in H. cbn [length] in H. lia.
Qed.

(** ** Initialization and the buffer over sequences of calls *)

Lemma push_imu_nonempty (buf : list imu_data) (d : imu_data) : push_imu buf d <> [].
Proof.
  unfold PointCloudOdometry.push_imu.
  destruct (Nat.eqb _ _); [destruct (tl buf) | destruct buf]; discriminate.
Qed.

(** What one call does to the flags and to the emptiness of the buffer. *)
Lemma do_call_flags (s : State) (c : call) (s' : State) (evs : list event) :
  do_call s c = Ok (s', evs) ->
  (initialized_ s = true -> initialized_ s' = true)
  /\ imu_data_has_been_received_ s'
     = (imu_data_has_been_received_ s || is_set_imu c)
  /\ (imu_deque_ s' = [] <-> imu_deque_ s = [] /\ is_set_imu c = false).
Proof.
  destruct c as [w x y z t | points]; cbn [PointCloudOdometry.do_call is_set_imu].
  - intros H. injection H; intros; subst. cbn.
    split; [auto |]. split; [rewrite orb_true_r; reflexivity |].
    split; [intros E; exfalso; exact (push_imu_nonempty _ _ E) | intros [_ E]; discriminate].
  - destruct (UpdateEstimate s points) as [[[r s1] evs1] |] eqn:E; [| discriminate].
    intros H. injection H; intros; subst. rewrite orb_false_r.
    destruct (initialized_ s) eqn:Hinit.
    + destruct (cycle_balance s points Hinit E)
        as [cur [d [_ [_ [Hi [Hd [Hr _]]]]]]].
      rewrite Hd, Hr. split; [auto |]. split; [reflexivity |]. tauto.
    + rewrite (UpdateEstimate_first_cloud s points Hinit) in E.
      destruct (first_cloud_quiet s points) as [s2 [Hs2 [_ [Hd [_ [Hr _]]]]]].
      rewrite Hs2 in E. injection E; intros; subst.
      rewrite Hd, Hr. split; [discriminate |]. split; [reflexivity |]. tauto.
Qed.

Lemma run_flags (cs : list call) :
  forall (s s' : State) (evs : list event),
    run s cs = Ok (s', evs) ->
    (initialized_ s = true -> initialized_ s' = true)
    /\ imu_data_has_been_received_ s'
       = (imu_data_has_been_received_ s || existsb is_set_imu cs)
    /\ (imu_deque_ s' = [] <-> imu_deque_ s = [] /\ existsb is_set_imu cs = false).
Proof.
  induction cs as [| c cs IH]; intros s s' evs H; cbn [PointCloudOdometry.run] in H.
  - injection H; intros; subst. cbn [existsb]. rewrite orb_false_r.
    split; [auto |]. split; [reflexivity |]. tauto.
  - destruct (do_call s c) as [[s1 evs1] |] eqn:E1; [| discriminate].
    destruct (run s1 cs) as [[s2 evs2] |] eqn:E2; [| discriminate].
    injection H; intros; subst.
    apply do_call_flags in E1. apply IH in E2.
    destruct E1 as [I1 [R1 D1]]. destruct E2 as [I2 [R2 D2]].
    cbn [existsb]. split; [auto |]. split.
    + rewrite R2, R1, orb_assoc. reflexivity.
    + rewrite D2, D1, orb_false_iff. tauto.
Qed.

(** C6: an uninitialized object stores the cloud as [query_], emits
    nothing (no registration, no publication) and returns [false]; it
    stays uninitialized when [use_imu_data_] is set and no orientation
    sample has been received, and becomes initialized otherwise.  An
    initialized object stays initialized through any sequence of calls. *)
Theorem C6_first_cloud_and_no_way_back :
  (forall (s : State) (points : PointCloud),
      initialized_ s = false ->
      exists s' : State,
        UpdateEstimate s points = Ok (false, s', [])
        /\ query_ s' = points
        /\ incremental_estimate_ s' = incremental_estimate_ s
        /\ integrated_estimate_ s' = integrated_estimate_ s
        /\ (use_imu_data_ s = true -> imu_data_has_been_received_ s = false ->
            initialized_ s' = false)
        /\ (use_imu_data_ s = false \/ imu_data_has_been_received_ s = true ->
            initialized_ s' = true))
  /\ (forall (s0 : State) (cs : list call) (s : State) (evs : list event),
        fresh s0 ->
        run s0 cs = Ok (s, evs) ->
        imu_data_has_been_received_ s = existsb is_set_imu cs)
  /\ (forall (s : State) (cs : list call) (s' : State) (evs : list event),
        initialized_ s = true ->
        run s cs = Ok (s', evs) ->
        initialized_ s' = true).
Proof.
  split; [| split].
  - intros s points Hinit.
    rewrite (UpdateEstimate_first_cloud s points Hinit).
    destruct (first_cloud_quiet s points)
      as [s' [Hs' [Hq [_ [_ [_ [_ [Hinc [Hint Hi]]]]]]]]].
    exists s'. rewrite Hs'. split; [reflexivity |].
    split; [exact Hq |]. split; [exact Hinc |]. split; [exact Hint |]. split.
    + intros Huse Hrec. rewrite Hi, Huse, Hrec. exact Hinit.
    + intros [Huse | Hrec]; rewrite Hi.
      * rewrite Huse. reflexivity.
      * rewrite Hrec. destruct (use_imu_data_ s); reflexivity.
  - intros s0 cs s evs [_ [Hrec _]] H.
    apply run_flags in H. destruct H as [_ [R _]]. rewrite R, Hrec. reflexivity.
  - intros s cs s' evs Hinit H.
    apply run_flags in H. destruct H as [I _]. exact (I Hinit).
Qed.

(** C10: an initialized [UpdateEstimate] reads element 0 of the copy of
    [imu_deque_] whatever [use_imu_data_] is.  After any calls on a fresh
    object that left it initialized, that read is in range, and the call
    returns, exactly when [SetImuData] was called at least once. *)
Theorem C10_buffer_read_needs_an_earlier_sample :
  forall (s0 : State) (cs : list call) (s : State) (evs : list event)
         (points : PointCloud),
    fresh s0 ->
    run s0 cs = Ok (s, evs) ->
    initialized_ s = true ->
    (imu_deque_ s = [] <-> existsb is_set_imu cs = false)
    /\ (UpdateEstimate s points = OutOfRange <-> existsb is_set_imu cs = false)
    /\ (existsb is_set_imu cs = true ->
        exists (e0 : imu_data) (rest : list imu_data) (s' : State)
               (evs' : list event),
          imu_deque_ s = e0 :: rest
          /\ UpdateEstimate s points = Ok (true, s', evs')
          /\ imu_current_attitude_ s'
             = fst (fold_left (match_step ts_diff (stamp_of points)) (e0 :: rest)
                      (internal_imu_attitude_ e0, no_match_ts_diff))).
Proof.
  intros s0 cs s evs points [_ [_ [Hdeque _]]] Hrun Hinit.
  apply run_flags in Hrun. destruct Hrun as [_ [_ D]].
  assert (Hempty : imu_deque_ s = [] <-> existsb is_set_imu cs = false)
    by (rewrite D; tauto).
  split; [exact Hempty |]. split; [split |].
  - intros Hout. apply Hempty.
    destruct (imu_deque_ s) as [| e0 rest] eqn:E; [reflexivity |].
    assert (Hne : imu_deque_ s <> []) by (rewrite E; discriminate).
    destruct (cycle_steps s points Hinit Hne)
      as [cur [d [T [diag [s' [evs' [_ [_ [_ Hok]]]]]]]]].
    rewrite Hok in Hout. discriminate.
  - intros Hnone. apply UpdateEstimate_empty_buffer; [exact Hinit |].
    apply Hempty. exact Hnone.
  - intros Hsome.
    destruct (imu_deque_ s) as [| e0 rest] eqn:E.
    { destruct Hempty as [Hempty _]. rewrite Hempty in Hsome by reflexivity.
      discriminate. }
    assert (Hne : imu_deque_ s <> []) by (rewrite E; discriminate).
    destruct (cycle_steps s points Hinit Hne)
      as [cur [d [T [diag [s' [evs' [Hfind [_ [_ Hok]]]]]]]]].
    exists e0, rest, s', (PublishTimestampDifference d :: evs').
    split; [reflexivity |]. split; [exact Hok |].
    destruct (cycle_balance s points Hinit Hok)
      as [cur2 [d2 [Hfind2 [_ [_ [_ [_ [Hcur _]]]]]]]].
    rewrite Hcur. rewrite E in Hfind2.
    unfold PointCloudOdometry.findAligned in Hfind2.
    injection Hfind2 as Hfold. cbn [fold_left] in *. rewrite Hfold. reflexivity.
Qed.

(** ** The fused transform *)

(** In a cycle that ends in fusion mode the incremental estimate keeps the
    translation of the registration transform, and its rotation is the
    product of lines 369-371 for the roll and the pitch that [getRPY] reads
    off the front delta and the yaw it reads off the registration
    rotation. *)
Lemma fusion_splices_angles (s : State) (points : PointCloud) :
  initialized_ s = true ->
  imu_deque_ s <> [] ->
  exists (cur : Mat4) (d : Q) (s' : State) (evs : list event),
    let delta := mat4_mul cur (inverse (imu_previous_attitude_ s)) in
    let front := hd delta (imu_attitude_deque_ s ++ [delta]) in
    let T := icp_align points (query_ s) in
    findAligned ts_diff (imu_deque_ s) (stamp_of points) = Ok (cur, d)
    /\ UpdateEstimate s points = Ok (true, s', evs)
    /\ (use_imu_data_ s' = true ->
        translation (incremental_estimate_ s') = col3 T
        /\ rotation (incremental_estimate_ s')
           = OUTPUT_ROTATION (vx (getRPY (block front))) (vy (getRPY (block front)))
               (vz (getRPY (block T)))).
Proof.
  intros Hinit Hne.
  destruct (cycle_steps s points Hinit Hne)
    as [cur [d [T [diag [s' [evs [Hfind [Hfuse [Hint Hrun]]]]]]]]].
  cbv zeta in Hfuse, Hint.
  exists cur, d, s', (PublishTimestampDifference d :: evs). cbv zeta.
  split; [exact Hfind |]. split; [exact Hrun |].
  open_integrate Hint.
  cbn [use_imu_data_ incremental_estimate_ before_icp] in *.
  intros Huse. rewrite Huse in Hfuse.
  destruct (imu_attitude_deque_ s
            ++ [mat4_mul cur (inverse (imu_previous_attitude_ s))])
    as [| h t] eqn:E.
  { destruct (imu_attitude_deque_ s); discriminate. }
  rewrite fuse_enabled in Hfuse. injection Hfuse; intros; subst.
  split; reflexivity.
Qed.


(** * Further properties of the class *)

(** ** What [UpdateEstimate] leaves alone *)

Lemma UpdateEstimate_frame (s : State) (points : PointCloud) (r : bool)
    (s' : State) (evs : list event) :
  UpdateEstimate s points = Ok (r, s', evs) ->
  r = initialized_ s
  /\ imu_deque_ s' = imu_deque_ s
  /\ imu_data_has_been_received_ s' = imu_data_has_been_received_ s
  /\ imu_first_attitude_ s' = imu_first_attitude_ s
  /\ check_imu_data_ s' = check_imu_data_ s
  /\ imu_threshold_ s' = imu_threshold_ s
  /\ transform_thresholding_ s' = transform_thresholding_ s
  /\ max_translation_ s' = max_translation_ s
  /\ max_rotation_ s' = max_rotation_ s
  /\ query_ s' = points
  /\ stamp_ s' = stamp_of points
  /\ (check_imu_data_ s = false -> use_imu_data_ s' = use_imu_data_ s).
Proof.
  intros H. destruct (initialized_ s) eqn:Hinit.
  - destruct (imu_deque_ s) as [| e0 rest] eqn:Hdeque.
    { rewrite (UpdateEstimate_empty_buffer s points Hinit Hdeque) in H. discriminate. }
    assert (Hne : imu_deque_ s <> []) by (rewrite Hdeque; discriminate).
    destruct (cycle_steps s points Hinit Hne)
      as [cur [d [T [diag [s1 [evs1 [_ [_ [Hint Hrun]]]]]]]]].
    cbv zeta in Hint. rewrite Hrun in H. apply Ok_inj in H.
    apply pair_equal_spec in H. destruct H as [H _].
    apply pair_equal_spec in H. destruct H as [<- <-].
    open_integrate Hint. cbn. rewrite Hdeque.
    repeat (split; [reflexivity |]).
    intros Hcheck. rewrite Hcheck. reflexivity.
  - rewrite (UpdateEstimate_first_cloud s points Hinit) in H. apply Ok_inj in H.
    unfold PointCloudOdometry.first_cloud in H.
    destruct (use_imu_data_ s) eqn:Huse;
      [destruct (imu_data_has_been_received_ s) eqn:Hrec |];
      apply pair_equal_spec in H; destruct H as [H _];
      apply pair_equal_spec in H; destruct H as [<- <-];
      cbn; repeat (split; [reflexivity |]); auto.
Qed.

(** One call, as far as the buffer and the configuration go. *)
Lemma do_call_frame (s : State) (c : call) (s' : State) (evs : list event) :
  do_call s c = Ok (s', evs) ->
  imu_deque_ s' = fold_left push_imu (sample_of_call c) (imu_deque_ s)
  /\ check_imu_data_ s' = check_imu_data_ s
  /\ imu_threshold_ s' = imu_threshold_ s
  /\ transform_thresholding_ s' = transform_thresholding_ s
  /\ max_translation_ s' = max_translation_ s
  /\ max_rotation_ s' = max_rotation_ s
  /\ (check_imu_data_ s = false -> use_imu_data_ s' = use_imu_data_ s).
Proof.
  destruct c as [w x y z t | points]; cbn [PointCloudOdometry.do_call].
  - intros H. apply Ok_inj in H.
    apply pair_equal_spec in H. destruct H as [<- _].
    cbn. repeat split; reflexivity.
  - destruct (UpdateEstimate s points) as [[[r s1] evs1] |] eqn:E; [| discriminate].
    intros H. apply Ok_inj in H.
    apply pair_equal_spec in H. destruct H as [<- _].
    destruct (UpdateEstimate_frame s points E)
      as [_ [Hd [_ [_ [Hc [Hi [Ht [Hmt [Hmr [_ [_ Hu]]]]]]]]]]].
    cbn [sample_of_call fold_left]. repeat split; assumption.
Qed.

(** ** The buffer and the configuration over sequences of calls *)

Lemma run_frame (cs : list call) :
  forall (s s' : State) (evs : list event),
    run s cs = Ok (s', evs) ->
    imu_deque_ s' = fold_left push_imu (samples_of_calls cs) (imu_deque_ s)
    /\ check_imu_data_ s' = check_imu_data_ s
    /\ imu_threshold_ s' = imu_threshold_ s
    /\ transform_thresholding_ s' = transform_thresholding_ s
    /\ max_translation_ s' = max_translation_ s
    /\ max_rotation_ s' = max_rotation_ s
    /\ (check_imu_data_ s = false -> use_imu_data_ s' = use_imu_data_ s).
Proof.
  induction cs as [| c cs IH]; intros s s' evs H; cbn [PointCloudOdometry.run] in H.
  - apply Ok_inj in H. apply pair_equal_spec in H. destruct H as [<- _].
    cbn. repeat split; reflexivity.
  - destruct (do_call s c) as [[s1 evs1] |] eqn:E1; [| discriminate].
    destruct (run s1 cs) as [[s2 evs2] |] eqn:E2; [| discriminate].
    apply Ok_inj in H. apply pair_equal_spec in H. destruct H as [<- _].
    apply do_call_frame in E1. apply IH in E2.
    destruct E1 as [D1 [C1 [I1 [T1 [M1 [R1 U1]]]]]].
    destruct E2 as [D2 [C2 [I2 [T2 [M2 [R2 U2]]]]]].
    unfold samples_of_calls. cbn [flat_map]. rewrite fold_left_app, <- D1.
    split; [exact D2 |].
    split; [congruence |]. split; [congruence |]. split; [congruence |].
    split; [congruence |]. split; [congruence |].
    intros Hc. rewrite U2 by congruence. apply U1. exact Hc.
Qed.

(** X1: whatever calls of [UpdateEstimate] come in between, the buffer
    holds the last 100 samples that [SetImuData] appended, oldest first:
    [UpdateEstimate] works on a copy and never removes a sample. *)
Theorem X1_buffer_holds_last_100_across_cycles :
  forall (s : State) (cs : list call) (s' : State) (evs : list event),
    imu_deque_ s = [] ->
    run s cs = Ok (s', evs) ->
    imu_deque_ s'
    = skipn (length (samples_of_calls cs) - 100) (samples_of_calls cs)
    /\ length (imu_deque_ s') = Nat.min 100 (length (samples_of_calls cs)).
Proof.
  intros s cs s' evs Hempty H.
  apply run_frame in H. destruct H as [D _].
  assert (E : imu_deque_ s'
              = skipn (length (samples_of_calls cs) - 100) (samples_of_calls cs)).
  { rewrite D, Hempty.
    rewrite push_imu_all by (cbn; unfold imu_deque_capacity; lia).
    reflexivity. }
  split; [exact E |]. rewrite E, length_skipn. lia.
Qed.

(** X5: no call changes [check_imu_data_], [imu_threshold_],
    [transform_thresholding_], [max_translation_] or [max_rotation_]; and
    with [check_imu_data_] unset no call changes [use_imu_data_]. *)
Theorem X5_configuration_is_kept :
  forall (s : State) (cs : list call) (s' : State) (evs : list event),
    run s cs = Ok (s', evs) ->
    check_imu_data_ s' = check_imu_data_ s
    /\ imu_threshold_ s' = imu_threshold_ s
    /\ transform_thresholding_ s' = transform_thresholding_ s
    /\ max_translation_ s' = max_translation_ s
    /\ max_rotation_ s' = max_rotation_ s
    /\ (check_imu_data_ s = false -> use_imu_data_ s' = use_imu_data_ s).
Proof.
  intros s cs s' evs H. apply run_frame in H. destruct H as [_ H]. exact H.
Qed.

(** ** The first attitude *)

Lemma do_call_first_attitude (s : State) (c : call) (s' : State) (evs : list event) :
  do_call s c = Ok (s', evs) ->
  imu_first_attitude_ s'
  = (if imu_data_has_been_received_ s then imu_first_attitude_ s
     else match sample_of_call c with
          | [] => imu_first_attitude_ s
          | e :: _ => internal_imu_attitude_ e
          end).
Proof.
  destruct c as [w x y z t | points]; cbn [PointCloudOdometry.do_call].
  - intros H. apply Ok_inj in H.
    apply pair_equal_spec in H. destruct H as [<- _].
    cbn. destruct (imu_data_has_been_received_ s); reflexivity.
  - destruct (UpdateEstimate s points) as [[[r s1] evs1] |] eqn:E; [| discriminate].
    intros H. apply Ok_inj in H.
    apply pair_equal_spec in H. destruct H as [<- _].
    destruct (UpdateEstimate_frame s points E) as [_ [_ [_ [Hf _]]]].
    rewrite Hf. cbn. destruct (imu_data_has_been_received_ s); reflexivity.
Qed.

Lemma run_first_attitude (cs : list call) :
  forall (s s' : State) (evs : list event),
    run s cs = Ok (s', evs) ->
    imu_first_attitude_ s'
    = (if imu_data_has_been_received_ s then imu_first_attitude_ s
       else match samples_of_calls cs with
            | [] => imu_first_attitude_ s
            | e :: _ => internal_imu_attitude_ e
            end).
Proof.
  induction cs as [| c cs IH]; intros s s' evs H; cbn [PointCloudOdometry.run] in H.
  - apply Ok_inj in H. apply pair_equal_spec in H. destruct H as [<- _].
    cbn. destruct (imu_data_has_been_received_ s); reflexivity.
  - destruct (do_call s c) as [[s1 evs1] |] eqn:E1; [| discriminate].
    destruct (run s1 cs) as [[s2 evs2] |] eqn:E2; [| discriminate].
    apply Ok_inj in H. apply pair_equal_spec in H. destruct H as [<- _].
    assert (F1 := do_call_first_attitude s c E1).
    destruct (do_call_flags s c E1) as [_ [R1 _]].
    apply IH in E2. rewrite E2, R1, F1.
    unfold samples_of_calls. cbn [flat_map].
    destruct (imu_data_has_been_received_ s); cbn [orb]; [reflexivity |].
    destruct c as [w x y z t | points]; cbn [is_set_imu sample_of_call app];
      reflexivity.
Qed.

(** X2: [imu_first_attitude_] is the attitude of the first sample ever
    passed to [SetImuData] and no later call changes it; when the first
    cloud that finds IMU data initializes the object, the attitude from
    which the first delta will be measured is that first sample's, however
    many samples have arrived since. *)
Theorem X2_first_delta_is_measured_from_first_sample :
  forall (s0 : State) (cs : list call) (s : State) (evs : list event)
         (e : imu_data) (later : list imu_data) (points : PointCloud),
    imu_data_has_been_received_ s0 = false ->
    run s0 cs = Ok (s, evs) ->
    samples_of_calls cs = e :: later ->
    imu_first_attitude_ s = internal_imu_attitude_ e
    /\ (initialized_ s = false -> use_imu_data_ s = true ->
        exists s' : State,
          UpdateEstimate s points = Ok (false, s', [])
          /\ initialized_ s' = true
          /\ imu_previous_attitude_ s' = internal_imu_attitude_ e).
Proof.
  intros s0 cs s evs e later points Hrec Hrun Hsamples.
  assert (Hfirst := run_first_attitude cs s0 Hrun).
  rewrite Hrec, Hsamples in Hfirst.
  split; [exact Hfirst |].
  intros Hinit Huse.
  destruct (run_flags cs s0 Hrun) as [_ [R _]].
  assert (Hsome : existsb is_set_imu cs = true).
  { clear - Hsamples. induction cs as [| c cs IH]; [discriminate |].
    cbn [existsb]. destruct c as [w x y z t | p]; [reflexivity |].
    apply IH. exact Hsamples. }
  rewrite Hsome, orb_true_r in R.
  rewrite (UpdateEstimate_first_cloud s points Hinit).
  unfold PointCloudOdometry.first_cloud. rewrite Huse, R.
  eexists. split; [reflexivity |]. split; [reflexivity |]. exact Hfirst.
Qed.

(** ** Clouds, registrations and poses *)

Lemma fuse_diagnostics (use : bool) (T : Mat4) (q : list Mat4) (T' : Mat4)
    (q' : list Mat4) (diag : list event) :
  fuse use T q = Ok (T', q', diag) ->
  filter is_icp diag = [] /\ incrementals diag = [].
Proof.
  unfold PointCloudOdometry.fuse. destruct use.
  - destruct q as [| d q0]; [discriminate |].
    intros H. apply Ok_inj in H.
    apply pair_equal_spec in H. destruct H as [_ <-]. split; reflexivity.
  - intros H. apply Ok_inj in H.
    apply pair_equal_spec in H. destruct H as [_ <-]. split; reflexivity.
Qed.

Lemma incrementals_app (a b : list event) :
  incrementals (a ++ b) = incrementals a ++ incrementals b.
Proof. unfold incrementals. apply flat_map_app. Qed.

(** The registration and the poses of one cycle. *)
Lemma cycle_events (s : State) (points : PointCloud) (r : bool) (s' : State)
    (evs : list event) :
  initialized_ s = true ->
  UpdateEstimate s points = Ok (r, s', evs) ->
  filter is_icp evs = [IcpAlign points (query_ s)]
  /\ incrementals evs = [incremental_estimate_ s']
  /\ reference_ s' = query_ s
  /\ integrated_estimate_ s'
     = (if small_enough (transform_thresholding_ s) (max_translation_ s)
             (max_rotation_ s) (incremental_estimate_ s')
        then PoseUpdate (integrated_estimate_ s) (incremental_estimate_ s')
        else integrated_estimate_ s).
Proof.
  intros Hinit H.
  destruct (imu_deque_ s) as [| e0 rest] eqn:Hdeque.
  { rewrite (UpdateEstimate_empty_buffer s points Hinit Hdeque) in H. discriminate. }
  assert (Hne : imu_deque_ s <> []) by (rewrite Hdeque; discriminate).
  destruct (cycle_steps s points Hinit Hne)
    as [cur [d [T [diag [s1 [evs1 [_ [Hfuse [Hint Hrun]]]]]]]]].
  cbv zeta in Hfuse, Hint. rewrite Hrun in H. apply Ok_inj in H.
  apply pair_equal_spec in H. destruct H as [H <-].
  apply pair_equal_spec in H. destruct H as [_ <-].
  destruct (fuse_diagnostics _ _ _ Hfuse) as [Hicp Hinc].
  open_integrate Hint.
  cbn [incremental_estimate_ integrated_estimate_ reference_ query_
       transform_thresholding_ max_translation_ max_rotation_ before_icp].
  split; [| split; [| split; reflexivity]].
  - cbn [app filter is_icp]. rewrite !filter_app, Hicp.
    destruct (small_enough _ _ _ _); reflexivity.
  - cbn [app incrementals flat_map incremental_of].
    change (flat_map incremental_of) with (@incrementals PointCloud Time).
    rewrite !incrementals_app, Hinc.
    destruct (small_enough _ _ _ _); reflexivity.
Qed.

Lemma last_cons_default (A : Type) (l : list A) :
  forall (b d d' : A), last (b :: l) d = last (b :: l) d'.
Proof.
  induction l as [| c l IH]; intros b d d'; [reflexivity |].
  change (last (b :: c :: l) d) with (last (c :: l) d).
  change (last (b :: c :: l) d') with (last (c :: l) d').
  apply IH.
Qed.

Lemma last_app_default (A : Type) (l1 l2 : list A) (d : A) :
  last (l1 ++ l2) d = last l2 (last l1 d).
Proof.
  revert d. induction l1 as [| a l1 IH]; intros d; [reflexivity |].
  destruct l1 as [| b l1].
  - destruct l2 as [| c l2]; [reflexivity |].
    change (last ([a] ++ c :: l2) d) with (last (c :: l2) d).
    apply last_cons_default.
  - change (last ((a :: b :: l1) ++ l2) d) with (last ((b :: l1) ++ l2) d).
    change (last (a :: b :: l1) d) with (last (b :: l1) d).
    apply IH.
Qed.

(** One call, as far as clouds, registrations and poses go. *)
Lemma do_call_clouds (s : State) (c : call) (s' : State) (evs : list event) :
  do_call s c = Ok (s', evs) ->
  query_ s' = last (cloud_of_call c) (query_ s)
  /\ (forall e, In e (filter is_icp evs) ->
      exists points, c = CallUpdateEstimate points /\ e = IcpAlign points (query_ s))
  /\ incremental_estimate_ s' = last (incrementals evs) (incremental_estimate_ s)
  /\ integrated_estimate_ s'
     = fold_left PoseUpdate
         (filter (small_enough (transform_thresholding_ s) (max_translation_ s)
                    (max_rotation_ s)) (incrementals evs))
         (integrated_estimate_ s).
Proof.
  destruct c as [w x y z t | points]; cbn [PointCloudOdometry.do_call].
  - intros H. apply Ok_inj in H.
    apply pair_equal_spec in H. destruct H as [<- <-].
    cbn. repeat split; try reflexivity. intros e [].
  - destruct (UpdateEstimate s points) as [[[r s1] evs1] |] eqn:E; [| discriminate].
    intros H. apply Ok_inj in H.
    apply pair_equal_spec in H. destruct H as [<- <-].
    destruct (UpdateEstimate_frame s points E) as [_ [_ [_ [_ [_ [_ [_ [_ [_ [Hq _]]]]]]]]]].
    cbn [cloud_of_call last]. split; [exact Hq |].
    destruct (initialized_ s) eqn:Hinit.
    + destruct (cycle_events s points Hinit E) as [Hicp [Hinc [_ Hint]]].
      rewrite Hicp, Hinc. cbn [last filter].
      split; [| split; [reflexivity |]].
      * intros e [<- | []]. exists points. split; reflexivity.
      * rewrite Hint. destruct (small_enough _ _ _ _); reflexivity.
    + rewrite (UpdateEstimate_first_cloud s points Hinit) in E.
      destruct (first_cloud_quiet s points)
        as [s2 [Hs2 [_ [_ [_ [_ [_ [Hinc [Hint _]]]]]]]]].
      rewrite Hs2 in E. apply Ok_inj in E.
      apply pair_equal_spec in E. destruct E as [E <-].
      apply pair_equal_spec in E. destruct E as [_ <-].
      cbn. split; [intros e [] |]. split; assumption.
Qed.

(** [query_] over a sequence of calls. *)
Lemma run_query (cs : list call) :
  forall (s s' : State) (evs : list event),
    run s cs = Ok (s', evs) ->
    query_ s' = last (clouds_of_calls cs) (query_ s).
Proof.
  induction cs as [| c cs IH]; intros s s' evs H; cbn [PointCloudOdometry.run] in H.
  - apply Ok_inj in H. apply pair_equal_spec in H. destruct H as [<- _]. reflexivity.
  - destruct (do_call s c) as [[s1 evs1] |] eqn:E1; [| discriminate].
    destruct (run s1 cs) as [[s2 evs2] |] eqn:E2; [| discriminate].
    apply Ok_inj in H. apply pair_equal_spec in H. destruct H as [<- _].
    destruct (do_call_clouds s c E1) as [Hq _].
    unfold clouds_of_calls in *. cbn [flat_map].
    rewrite (IH s1 s2 evs2 E2), Hq, last_app_default. reflexivity.
Qed.

(** X3: every registration is of the cloud of one [UpdateEstimate] call
    (source) against the cloud of the [UpdateEstimate] call just before it
    (target), clouds received while the object waited for IMU data
    included; and [query_] is the cloud of the latest call. *)
Theorem X3_registration_pairs_consecutive_clouds :
  forall (cs : list call) (s s' : State) (evs : list event),
    run s cs = Ok (s', evs) ->
    query_ s' = last (clouds_of_calls cs) (query_ s)
    /\ (forall source target : PointCloud,
          In (IcpAlign source target) evs ->
          consecutive target source (query_ s :: clouds_of_calls cs)).
Proof.
  induction cs as [| c cs IH]; intros s s' evs H; cbn [PointCloudOdometry.run] in H.
  - apply Ok_inj in H. apply pair_equal_spec in H. destruct H as [<- <-].
    split; [reflexivity |]. intros source target [].
  - destruct (do_call s c) as [[s1 evs1] |] eqn:E1; [| discriminate].
    destruct (run s1 cs) as [[s2 evs2] |] eqn:E2; [| discriminate].
    apply Ok_inj in H. apply pair_equal_spec in H. destruct H as [<- <-].
    destruct (do_call_clouds s c E1) as [Hq [Hicp _]].
    destruct (IH s1 s2 evs2 E2) as [Hq2 Hpairs].
    unfold clouds_of_calls in *. cbn [flat_map].
    split.
    + rewrite Hq2, Hq, last_app_default. reflexivity.
    + intros source target Hin. apply in_app_or in Hin.
      destruct Hin as [Hin | Hin].
      * assert (Hf : In (IcpAlign source target) (filter is_icp evs1))
          by (apply filter_In; split; [exact Hin | reflexivity]).
        destruct (Hicp _ Hf) as [points [-> Heq]].
        injection Heq as -> ->.
        exists [], (flat_map cloud_of_call cs). reflexivity.
      * destruct (Hpairs _ _ Hin) as [l1 [l2 Hl]].
        destruct c as [w x y z t | points]; cbn [cloud_of_call app last] in *.
        -- rewrite Hq in Hl. exists l1, l2. exact Hl.
        -- rewrite Hq in Hl. exists (query_ s :: l1), l2.
           cbn [app]. rewrite <- Hl. reflexivity.
Qed.

(** X4: after any sequence of calls the integrated estimate is the
    initial one composed, in order, with exactly those published
    incremental estimates that pass the condition of lines 394-396; and the
    incremental estimate is the last one published. *)
Theorem X4_integrated_estimate_composes_accepted_increments :
  forall (cs : list call) (s s' : State) (evs : list event),
    run s cs = Ok (s', evs) ->
    integrated_estimate_ s'
    = fold_left PoseUpdate
        (filter (small_enough (transform_thresholding_ s) (max_translation_ s)
                   (max_rotation_ s)) (incrementals evs))
        (integrated_estimate_ s)
    /\ incremental_estimate_ s' = last (incrementals evs) (incremental_estimate_ s).
Proof.
  induction cs as [| c cs IH]; intros s s' evs H; cbn [PointCloudOdometry.run] in H.
  - apply Ok_inj in H. apply pair_equal_spec in H. destruct H as [<- <-].
    split; reflexivity.
  - destruct (do_call s c) as [[s1 evs1] |] eqn:E1; [| discriminate].
    destruct (run s1 cs) as [[s2 evs2] |] eqn:E2; [| discriminate].
    apply Ok_inj in H. apply pair_equal_spec in H. destruct H as [<- <-].
    destruct (do_call_clouds s c E1) as [_ [_ [Hinc Hint]]].
    destruct (do_call_frame s c E1) as [_ [_ [_ [Ht [Hmt [Hmr _]]]]]].
    destruct (IH s1 s2 evs2 E2) as [Hint2 Hinc2].
    rewrite incrementals_app, filter_app, fold_left_app, last_app_default.
    rewrite Hint2, Hinc2, Hint, Hinc, Ht, Hmt, Hmr. split; reflexivity.
Qed.

(** X9: [GetLastPointCloud] fails exactly on an uninitialized object; on
    an initialized one it gives the cloud of the latest [UpdateEstimate]
    call.  A cloud handed in while the object waits for IMU data is stored
    in [query_] but not given out. *)
Theorem X9_GetLastPointCloud_gives_latest_cloud :
  forall (cs : list call) (s s' : State) (evs : list event) (points : PointCloud),
    run s cs = Ok (s', evs) ->
    (GetLastPointCloud s' = None <-> initialized_ s' = false)
    /\ (initialized_ s' = true ->
        GetLastPointCloud s' = Some (last (clouds_of_calls cs) (query_ s)))
    /\ (initialized_ s' = false -> use_imu_data_ s' = true ->
        imu_data_has_been_received_ s' = false ->
        exists s'' : State,
          UpdateEstimate s' points = Ok (false, s'', [])
          /\ query_ s'' = points
          /\ GetLastPointCloud s'' = None).
Proof.
  intros cs s s' evs points H.
  assert (Hq := run_query cs s H).
  unfold PointCloudOdometry.GetLastPointCloud.
  split; [| split].
  - destruct (initialized_ s'); cbn; split; intros; congruence.
  - intros ->. cbn. rewrite Hq. reflexivity.
  - intros Hinit Huse Hrec.
    rewrite (UpdateEstimate_first_cloud s' points Hinit).
    unfold PointCloudOdometry.first_cloud. rewrite Huse, Hrec, Hinit.
    eexists. split; [reflexivity |]. split; reflexivity.
Qed.

(** ** The self-check and the matcher together *)

Lemma max_ts_diff_bounds : (0 < max_ts_diff)%Q /\ (max_ts_diff < 1000)%Q.
Proof. split; reflexivity. Qed.

(** X6: with [check_imu_data_] set, a cycle ends in fusion mode exactly
    when the buffer holds a sample strictly earlier than the scan by less
    than [max_ts_diff]; the attitude it then uses is that of the first
    closest such sample. *)
Theorem X6_self_check_needs_close_earlier_sample :
  forall (s : State) (points : PointCloud),
    initialized_ s = true ->
    imu_deque_ s <> [] ->
    check_imu_data_ s = true ->
    exists (s' : State) (evs : list event),
      UpdateEstimate s points = Ok (true, s', evs)
      /\ (use_imu_data_ s' = true
          <-> exists e : imu_data,
                In e (imu_deque_ s)
                /\ (- max_ts_diff < delta_of (stamp_of points) e)%Q
                /\ (delta_of (stamp_of points) e < 0)%Q)
      /\ (use_imu_data_ s' = true ->
          exists (i : nat) (e : imu_data),
            first_closest (stamp_of points) (imu_deque_ s) i e
            /\ imu_current_attitude_ s' = internal_imu_attitude_ e
            /\ (- max_ts_diff < delta_of (stamp_of points) e)%Q).
Proof.
  intros s points Hinit Hne Hcheck.
  destruct (cycle_steps s points Hinit Hne)
    as [cur [d [T [diag [s' [evs [Hfind [_ [Hint Hrun]]]]]]]]].
  cbv zeta in Hint.
  exists s', (PublishTimestampDifference d :: evs). split; [exact Hrun |].
  open_integrate Hint.
  cbn [use_imu_data_ imu_current_attitude_ before_icp]. rewrite Hcheck.
  rewrite decideMode_checked.
  destruct max_ts_diff_bounds as [Hpos Hbig].
  destruct (imu_deque_ s) as [| e0 rest] eqn:Hdeque; [congruence |].
  unfold PointCloudOdometry.findAligned in Hfind. apply Ok_inj in Hfind.
  destruct (match_loop (stamp_of points) (internal_imu_attitude_ e0) (e0 :: rest))
    as [[Hnone Hacc] | [i [e [Hbest Hacc]]]];
    rewrite Hacc in Hfind; apply pair_equal_spec in Hfind;
    destruct Hfind as [<- <-].
  - assert (Hno : ~ (Qabs no_match_ts_diff < max_ts_diff)%Q).
    { intros H. assert (E : (Qabs no_match_ts_diff == 1000)%Q) by reflexivity.
      rewrite E in H. Lqa.lra. }
    split; [split |].
    + intros H. contradiction.
    + intros [e [Hin [Hlow Hneg]]]. exfalso.
      rewrite Forall_forall in Hnone. apply (Hnone e Hin).
      split; [Lqa.lra | exact Hneg].
    + intros H. contradiction.
  - destruct Hbest as [Hi [[Hlow Hneg] [Hmax Hfirst]]].
    assert (Habs : (Qabs (delta_of (stamp_of points) e) < max_ts_diff)%Q
                   <-> (- max_ts_diff < delta_of (stamp_of points) e)%Q).
    { rewrite (Qabs_of_negative Hneg). split; intros H; Lqa.lra. }
    split; [split |].
    + intros H. apply Habs in H. exists e.
      split; [exact (nth_error_In _ _ Hi) |]. split; assumption.
    + intros [e' [Hin [Hlow' Hneg']]]. apply Habs.
      apply In_nth_error in Hin. destruct Hin as [j Hj].
      assert (Hel : eligible (stamp_of points) e') by (split; [Lqa.lra | exact Hneg']).
      specialize (Hmax j e' Hj Hel). Lqa.lra.
    + intros H. apply Habs in H. exists i, e.
      split; [repeat split; assumption |]. split; [reflexivity | exact H].
Qed.

(** ** Which sequences of calls read out of range *)

Lemma do_call_safe (s : State) (c : call) :
  safe_state s ->
  exists (s' : State) (evs : list event), do_call s c = Ok (s', evs) /\ safe_state s'.
Proof.
  intros Hsafe. destruct c as [w x y z t | points]; cbn [PointCloudOdometry.do_call].
  - eexists. eexists. split; [reflexivity |]. left. cbn. apply push_imu_nonempty.
  - destruct (initialized_ s) eqn:Hinit.
    + destruct Hsafe as [Hne | [Hno _]]; [| congruence].
      destruct (cycle_steps s points Hinit Hne)
        as [cur [d [T [diag [s' [evs [_ [_ [_ Hrun]]]]]]]]].
      rewrite Hrun. eexists. eexists. split; [reflexivity |].
      destruct (UpdateEstimate_frame s points Hrun) as [_ [Hd _]].
      left. rewrite Hd. exact Hne.
    + rewrite (UpdateEstimate_first_cloud s points Hinit).
      destruct (first_cloud_quiet s points)
        as [s' [Hs' [_ [Hd [_ [Hr [Hu [_ [_ Hi]]]]]]]]].
      rewrite Hs'. eexists. eexists. split; [reflexivity |].
      destruct Hsafe as [Hne | [_ [Huse Hrec]]].
      * left. rewrite Hd. exact Hne.
      * right. rewrite Hi, Hu, Hr, Huse, Hrec. repeat split; assumption.
Qed.

Lemma run_safe (cs : list call) :
  forall s : State,
    safe_state s ->
    exists (s' : State) (evs : list event), run s cs = Ok (s', evs).
Proof.
  induction cs as [| c cs IH]; intros s Hsafe; cbn [PointCloudOdometry.run].
  - eexists. eexists. reflexivity.
  - destruct (do_call_safe c Hsafe) as [s1 [evs1 [E1 Hsafe1]]].
    rewrite E1. destruct (IH s1 Hsafe1) as [s2 [evs2 E2]].
    rewrite E2. eexists. eexists. reflexivity.
Qed.

(** X13: on a fresh object a sequence of calls reads out of range exactly
    when [use_imu_data_] is unset and the sequence starts with two calls of
    [UpdateEstimate]; in particular never when [use_imu_data_] is set, and
    never once a sample has come before the second cloud. *)
Theorem X13_out_of_range_only_for_two_clouds_without_imu :
  forall (s0 : State) (cs : list call),
    fresh s0 ->
    (run s0 cs = OutOfRange
     <-> use_imu_data_ s0 = false
         /\ exists (p1 p2 : PointCloud) (rest : list call),
              cs = CallUpdateEstimate p1 :: CallUpdateEstimate p2 :: rest).
Proof.
  intros s0 cs [Hinit [Hrec [Hdeque _]]].
  assert (Hnot : forall s, safe_state s -> run s cs <> OutOfRange).
  { intros s Hs H. destruct (run_safe cs Hs) as [s' [evs E]]. congruence. }
  split.
  - intros Hout. destruct (use_imu_data_ s0) eqn:Huse.
    { exfalso. apply (Hnot s0); [right; repeat split; assumption | exact Hout]. }
    split; [reflexivity |].
    destruct cs as [| c1 cs1]; [discriminate |].
    destruct c1 as [w x y z t | p1].
    { exfalso. cbn [PointCloudOdometry.run PointCloudOdometry.do_call] in Hout.
      destruct (run_safe cs1 (s := SetImuData s0 w x y z t)) as [s' [evs E]].
      - left. cbn. apply push_imu_nonempty.
      - rewrite E in Hout. discriminate. }
    destruct cs1 as [| c2 cs2].
    { exfalso. cbn [PointCloudOdometry.run PointCloudOdometry.do_call] in Hout.
      rewrite (UpdateEstimate_first_cloud s0 p1 Hinit) in Hout.
      destruct (first_cloud s0 p1) as [[r s1] evs1]. discriminate. }
    destruct c2 as [w x y z t | p2]; [| exists p1, p2, cs2; reflexivity].
    exfalso. cbn [PointCloudOdometry.run PointCloudOdometry.do_call] in Hout.
    rewrite (UpdateEstimate_first_cloud s0 p1 Hinit) in Hout.
    destruct (first_cloud s0 p1) as [[r s1] evs1].
    destruct (run_safe cs2 (s := SetImuData s1 w x y z t)) as [s' [evs E]].
    + left. cbn. apply push_imu_nonempty.
    + rewrite E in Hout. discriminate.
  - intros [Huse [p1 [p2 [rest ->]]]].
    cbn [PointCloudOdometry.run PointCloudOdometry.do_call].
    rewrite (UpdateEstimate_first_cloud s0 p1 Hinit).
    destruct (first_cloud_quiet s0 p1) as [s1 [Hs1 [_ [Hd [_ [_ [_ [_ [_ Hi]]]]]]]]].
    rewrite Hs1. rewrite Huse in Hi.
    rewrite (UpdateEstimate_empty_buffer s1 p2 Hi) by congruence.
    reflexivity.
Qed.

(** ** The delta queue when the mode never changes *)

Lemma do_call_queue_modes (s : State) (c : call) (s' : State) (evs : list event) :
  do_call s c = Ok (s', evs) ->
  check_imu_data_ s = false ->
  (use_imu_data_ s = true -> imu_attitude_deque_ s = [] ->
   imu_attitude_deque_ s' = [])
  /\ (use_imu_data_ s = false -> consumed evs = 0%nat).
Proof.
  destruct c as [w x y z t | points]; cbn [PointCloudOdometry.do_call].
  - intros H _. apply Ok_inj in H.
    apply pair_equal_spec in H. destruct H as [<- <-]. split; auto.
  - destruct (UpdateEstimate s points) as [[[r s1] evs1] |] eqn:E; [| discriminate].
    intros H Hcheck. apply Ok_inj in H.
    apply pair_equal_spec in H. destruct H as [<- <-].
    destruct (UpdateEstimate_frame s points E)
      as [_ [_ [_ [_ [_ [_ [_ [_ [_ [_ [_ Hu]]]]]]]]]]].
    specialize (Hu Hcheck).
    destruct (initialized_ s) eqn:Hinit.
    + destruct (cycle_balance s points Hinit E)
        as [cur [d [_ [_ [_ [_ [_ [_ [_ [_ [Hc [_ [Hq _]]]]]]]]]]]]].
      cbv zeta in Hq. rewrite Hu in Hc, Hq. split.
      * intros Huse Hempty. rewrite Hq, Huse, Hempty. reflexivity.
      * intros Huse. rewrite Hc, Huse. reflexivity.
    + rewrite (UpdateEstimate_first_cloud s points Hinit) in E.
      destruct (first_cloud_quiet s points) as [s2 [Hs2 [_ [_ [Hq _]]]]].
      rewrite Hs2 in E. apply Ok_inj in E.
      apply pair_equal_spec in E. destruct E as [E <-].
      apply pair_equal_spec in E. destruct E as [_ <-].
      split; [intros _ Hempty; rewrite Hq; exact Hempty | reflexivity].
Qed.

Lemma run_queue_modes (cs : list call) :
  forall (s s' : State) (evs : list event),
    run s cs = Ok (s', evs) ->
    check_imu_data_ s = false ->
    (use_imu_data_ s = true -> imu_attitude_deque_ s = [] ->
     imu_attitude_deque_ s' = [])
    /\ (use_imu_data_ s = false -> consumed evs = 0%nat).
Proof.
  induction cs as [| c cs IH]; intros s s' evs H Hcheck;
    cbn [PointCloudOdometry.run] in H.
  - apply Ok_inj in H. apply pair_equal_spec in H. destruct H as [<- <-].
    split; auto.
  - destruct (do_call s c) as [[s1 evs1] |] eqn:E1; [| discriminate].
    destruct (run s1 cs) as [[s2 evs2] |] eqn:E2; [| discriminate].
    apply Ok_inj in H. apply pair_equal_spec in H. destruct H as [<- <-].
    destruct (do_call_frame s c E1) as [_ [C1 [_ [_ [_ [_ U1]]]]]].
    specialize (U1 Hcheck).
    destruct (do_call_queue_modes s c E1 Hcheck) as [Q1 N1].
    assert (Hcheck1 : check_imu_data_ s1 = false) by congruence.
    destruct (IH s1 s2 evs2 E2 Hcheck1) as [Q2 N2].
    split.
    + intros Huse Hempty. apply Q2; [congruence | auto].
    + intros Huse. rewrite consumed_app, N1 by exact Huse.
      rewrite N2 by congruence. reflexivity.
Qed.

(** X14: on a fresh object with [check_imu_data_] unset the mode never
    changes.  In fusion mode every cycle takes the delta it has just
    queued, so the queue is empty after every call; without fusion no delta
    is ever taken and the queue holds one delta per cycle run so far. *)
Theorem X14_delta_queue_when_mode_is_fixed :
  forall (s0 : State) (cs : list call) (s : State) (evs : list event),
    fresh s0 ->
    check_imu_data_ s0 = false ->
    run s0 cs = Ok (s, evs) ->
    use_imu_data_ s = use_imu_data_ s0
    /\ (use_imu_data_ s0 = true ->
        imu_attitude_deque_ s = [] /\ consumed evs = produced evs)
    /\ (use_imu_data_ s0 = false ->
        consumed evs = 0%nat /\ length (imu_attitude_deque_ s) = produced evs).
Proof.
  intros s0 cs s evs [_ [_ [_ Hq]]] Hcheck H.
  destruct (run_frame cs s0 H) as [_ [_ [_ [_ [_ [_ Hu]]]]]].
  destruct (run_queue_modes cs s0 H Hcheck) as [Q N].
  assert (B := run_balance cs s0 H). rewrite Hq in B. cbn [length] in B.
  split; [exact (Hu Hcheck) |]. split.
  - intros Huse. specialize (Q Huse Hq). rewrite Q in B. cbn [length] in B.
    split; [exact Q | lia].
  - intros Huse. specialize (N Huse). split; [exact N | lia].
Qed.

(** ** Rotation matrices *)

Lemma mat3_mul_assoc (a b c : Mat3) :
  mat3_mul (mat3_mul a b) c = mat3_mul a (mat3_mul b c).
Proof. destruct a, b, c. unfold mat3_mul. cbn. f_equal; ring. Qed.

Lemma transpose_mat3_mul (a b : Mat3) :
  Synthetic.transpose (mat3_mul a b)
  = mat3_mul (Synthetic.transpose b) (Synthetic.transpose a).
Proof. destruct a, b. unfold mat3_mul, Synthetic.transpose. cbn. f_equal; ring. Qed.

Lemma mat3_mul_Identity3_r (a : Mat3) : mat3_mul a Identity3 = a.
Proof. destruct a. unfold mat3_mul, Identity3. cbn. f_equal; ring. Qed.

Lemma det3_mat3_mul (a b : Mat3) : det3 (mat3_mul a b) = (det3 a * det3 b)%R.
Proof. destruct a, b. unfold det3, mat3_mul. cbn. ring. Qed.

Lemma is_rotation_mat3_mul (a b : Mat3) :
  is_rotation a -> is_rotation b -> is_rotation (mat3_mul a b).
Proof.
  intros [Ha Da] [Hb Db]. split.
  - rewrite transpose_mat3_mul, mat3_mul_assoc.
    rewrite <- (mat3_mul_assoc b), Hb.
    replace (mat3_mul Identity3 (Synthetic.transpose a)) with (Synthetic.transpose a)
      by (destruct a; unfold mat3_mul, Identity3, Synthetic.transpose; cbn;
          f_equal; ring).
    exact Ha.
  - rewrite det3_mat3_mul, Da, Db. ring.
Qed.

Lemma sin_cos_square (a : R) : (sin a * sin a + cos a * cos a = 1)%R.
Proof. assert (H := sin2_cos2 a). unfold Rsqr in H. exact H. Qed.

Lemma is_rotation_AngleAxisX (a : R) : is_rotation (AngleAxisX a).
Proof.
  assert (H := sin_cos_square a).
  split; [unfold mat3_mul, Synthetic.transpose, AngleAxisX, Identity3; cbn;
          f_equal; nsatz
         | unfold det3, AngleAxisX; cbn; nsatz].
Qed.

Lemma is_rotation_AngleAxisY (a : R) : is_rotation (AngleAxisY a).
Proof.
  assert (H := sin_cos_square a).
  split; [unfold mat3_mul, Synthetic.transpose, AngleAxisY, Identity3; cbn;
          f_equal; nsatz
         | unfold det3, AngleAxisY; cbn; nsatz].
Qed.

Lemma is_rotation_AngleAxisZ (a : R) : is_rotation (AngleAxisZ a).
Proof.
  assert (H := sin_cos_square a).
  split; [unfold mat3_mul, Synthetic.transpose, AngleAxisZ, Identity3; cbn;
          f_equal; nsatz
         | unfold det3, AngleAxisZ; cbn; nsatz].
Qed.

Lemma is_rotation_OUTPUT_ROTATION (out_roll out_pitch out_yaw : R) :
  is_rotation (OUTPUT_ROTATION out_roll out_pitch out_yaw).
Proof.
  unfold OUTPUT_ROTATION. apply is_rotation_mat3_mul;
    [apply is_rotation_mat3_mul;
     [apply is_rotation_AngleAxisX | apply is_rotation_AngleAxisY]
    | apply is_rotation_AngleAxisZ].
Qed.

Lemma is_rotation_toRotationMatrix (w x y z : R) :
  (w * w + x * x + y * y + z * z = 1)%R ->
  is_rotation (toRotationMatrix w x y z).
Proof.
  intros H.
  split; [unfold mat3_mul, Synthetic.transpose, toRotationMatrix, Identity3; cbn;
          f_equal; nsatz
         | unfold det3, toRotationMatrix; cbn; nsatz].
Qed.

(** X7: whatever the registration returned, the rotation of the
    incremental estimate of a cycle that ends in fusion mode is orthogonal
    with determinant 1, and its translation is the registration's. *)
Theorem X7_fused_rotation_is_a_rotation :
  forall (s : State) (points : PointCloud),
    initialized_ s = true ->
    imu_deque_ s <> [] ->
    exists (s' : State) (evs : list event),
      UpdateEstimate s points = Ok (true, s', evs)
      /\ (use_imu_data_ s' = true ->
          is_rotation (rotation (incremental_estimate_ s'))
          /\ translation (incremental_estimate_ s')
             = col3 (icp_align points (query_ s))).
Proof.
  intros s points Hinit Hne.
  destruct (fusion_splices_angles s points Hinit Hne)
    as [cur [d [s' [evs [_ [Hrun Hfused]]]]]].
  cbv zeta in Hfused. exists s', evs. split; [exact Hrun |].
  intros Huse. destruct (Hfused Huse) as [Ht Hr].
  split; [rewrite Hr; apply is_rotation_OUTPUT_ROTATION | exact Ht].
Qed.

Lemma samples_of_unit_calls (cs : list call) :
  Forall (@unit_call PointCloud Time) cs ->
  Forall (@attitude_is_rotation Time) (samples_of_calls cs).
Proof.
  induction cs as [| c cs IH]; intros H; [constructor |].
  inversion H as [| c' cs' Hc Hcs]; subst.
  unfold samples_of_calls. cbn [flat_map]. apply Forall_app. split; [| exact (IH Hcs)].
  destruct c as [w x y z t | points]; cbn [sample_of_call]; [| constructor].
  constructor; [| constructor].
  unfold attitude_is_rotation. cbn. repeat split; try reflexivity;
    apply (is_rotation_toRotationMatrix Hc).
Qed.

(** X12: [SetImuData] does not normalize the quaternion it is given; when
    every quaternion passed has norm 1, every attitude in the buffer is a
    rotation (orthogonal block of determinant 1, no translation, last row
    0 0 0 1), whatever other calls came in between. *)
Theorem X12_unit_quaternions_give_rotations :
  forall (s : State) (cs : list call) (s' : State) (evs : list event),
    imu_deque_ s = [] ->
    Forall (@unit_call PointCloud Time) cs ->
    run s cs = Ok (s', evs) ->
    Forall (@attitude_is_rotation Time) (imu_deque_ s').
Proof.
  intros s cs s' evs Hempty Hunit H.
  apply run_frame in H. destruct H as [D _].
  rewrite D, Hempty.
  rewrite push_imu_all by (cbn; unfold imu_deque_capacity; lia).
  cbn [app]. apply Forall_forall. intros e Hin.
  assert (Hall := samples_of_unit_calls Hunit). rewrite Forall_forall in Hall.
  apply Hall.
  rewrite <- (firstn_skipn (length (@nil imu_data) + length (samples_of_calls cs)
                            - imu_deque_capacity) (samples_of_calls cs)).
  apply in_or_app. right. exact Hin.
Qed.

(** ** Start-up *)

Variable get_string : string -> option string.
Variable get_double : string -> option Q.
Variable get_bool : string -> option bool.
Variable get_int : string -> option Z.
Variable QuatToR : R -> R -> R -> R -> Mat3.
Variable Roll : Mat3 -> R.
Variable Pitch : Mat3 -> R.
Variable Yaw : Mat3 -> R.
Variable Rot3 : R -> R -> R -> Mat3.

Local Abbreviation LoadParameters :=
  (@LoadParameters PointCloud Time get_string get_double get_bool get_int
     QuatToR Roll Pitch Yaw Rot3).
Local Abbreviation Initialize :=
  (@Initialize PointCloud Time get_string get_double get_bool get_int
     QuatToR Roll Pitch Yaw Rot3).
Local Abbreviation initial_pose :=
  (initial_pose get_double QuatToR Roll Pitch Yaw Rot3).
Local Abbreviation required_keys_present :=
  (required_keys_present get_string get_double get_bool get_int).
Local Abbreviation have_fiducial := (have_fiducial get_double).

(** Case analysis on every lookup of [LoadParameters]. *)
Ltac each_lookup :=
  repeat match goal with
         | |- context [get_string ?k] => destruct (get_string k)
         | |- context [get_double ?k] => destruct (get_double k)
         | |- context [get_bool ?k] => destruct (get_bool k)
         | |- context [get_int ?k] => destruct (get_int k)
         end.

(** X10: [LoadParameters], and with it [Initialize], returns [true]
    exactly when the two frame ids, the six [icp/] keys and the three
    [imu/] keys are all found; the seven fiducial keys are not needed. *)
Theorem X10_LoadParameters_needs_eleven_keys :
  forall (s : State) (p : Settings),
    fst (fst (LoadParameters s p)) = required_keys_present
    /\ fst (fst (Initialize s p)) = required_keys_present.
Proof.
  intros s p.
  assert (L : fst (fst (LoadParameters s p)) = required_keys_present).
  { unfold PointCloudOdometry.LoadParameters,
      PointCloudOdometry.required_keys_present.
    destruct (get_string "frame_id/fixed"); [| reflexivity].
    destruct (get_string "frame_id/odometry"); [| reflexivity].
    destruct (get_double "icp/tf_epsilon"); [| reflexivity].
    destruct (get_double "icp/corr_dist"); [| reflexivity].
    destruct (get_int "icp/iterations"); [| reflexivity].
    destruct (get_bool "icp/transform_thresholding"); [| reflexivity].
    destruct (get_double "icp/max_translation"); [| reflexivity].
    destruct (get_double "icp/max_rotation"); [| reflexivity].
    destruct (get_bool "imu/use_imu_data"); [| reflexivity].
    destruct (get_bool "imu/check_imu_data"); [| reflexivity].
    destruct (get_double "imu/imu_threshold"); reflexivity. }
  split; [exact L |].
  unfold PointCloudOdometry.Initialize.
  destruct (LoadParameters s p) as [[loaded s1] p1]. cbn [fst] in L.
  rewrite <- L. destruct loaded; reflexivity.
Qed.

(** What [LoadParameters] never touches, and what it does to the
    integrated estimate. *)
Lemma LoadParameters_frame (s : State) (p : Settings) :
  let s' := snd (fst (LoadParameters s p)) in
  initialized_ s' = initialized_ s
  /\ imu_data_has_been_received_ s' = imu_data_has_been_received_ s
  /\ imu_deque_ s' = imu_deque_ s
  /\ imu_attitude_deque_ s' = imu_attitude_deque_ s
  /\ imu_first_attitude_ s' = imu_first_attitude_ s
  /\ query_ s' = query_ s
  /\ incremental_estimate_ s' = incremental_estimate_ s.
Proof.
  cbv zeta. unfold PointCloudOdometry.LoadParameters.
  each_lookup; cbn; repeat split; reflexivity.
Qed.

(** X11: as soon as both frame ids are found [integrated_estimate_] is
    set to the initial pose, even when a later key is missing and
    [LoadParameters] returns [false].  The initial translation is put
    together key by key: each coordinate is the value of its own key when
    that key is found and 0 when it is not, also when the warning that the
    origin is used is given (x found and y missing: x is kept, y is 0). *)
Theorem X11_initial_pose_is_loaded_key_by_key :
  forall (s : State) (p : Settings) (fixed odometry : string),
    get_string "frame_id/fixed" = Some fixed ->
    get_string "frame_id/odometry" = Some odometry ->
    integrated_estimate_ (snd (fst (LoadParameters s p))) = initial_pose
    /\ translation initial_pose
       = mkVec3
           (Q2R (after_Get 0%Q (get_double "fiducial_calibration/position/x")))
           (Q2R (after_Get 0%Q (get_double "fiducial_calibration/position/y")))
           (Q2R (after_Get 0%Q (get_double "fiducial_calibration/position/z")))
    /\ (forall v : Q,
          get_double "fiducial_calibration/position/x" = Some v ->
          get_double "fiducial_calibration/position/y" = None ->
          have_fiducial = false
          /\ vx (translation initial_pose) = Q2R v
          /\ vy (translation initial_pose) = 0%R).
Proof.
  intros s p fixed odometry Hf Ho.
  split; [| split].
  - unfold PointCloudOdometry.LoadParameters. rewrite Hf, Ho.
    destruct (get_double "icp/tf_epsilon"); [| reflexivity].
    destruct (get_double "icp/corr_dist"); [| reflexivity].
    destruct (get_int "icp/iterations"); [| reflexivity].
    destruct (get_bool "icp/transform_thresholding"); [| reflexivity].
    destruct (get_double "icp/max_translation"); [| reflexivity].
    destruct (get_double "icp/max_rotation"); [| reflexivity].
    destruct (get_bool "imu/use_imu_data"); [| reflexivity].
    destruct (get_bool "imu/check_imu_data"); [| reflexivity].
    destruct (get_double "imu/imu_threshold"); reflexivity.
  - reflexivity.
  - intros v Hx Hy.
    unfold PointCloudOdometry.have_fiducial, PointCloudOdometry.initial_pose.
    rewrite Hx, Hy. cbn. split; [reflexivity |]. split; [reflexivity |].
    unfold Q2R. cbn. Lra.lra.
Qed.


End Properties.

(** * The theorems at concrete inputs *)

Lemma C7_attitude_buffer_keeps_last_100_witness :
  imu_deque_ (Synthetic.configured true true true) = []
  /\ length (imu_deque_
               (fold_left (@ingest Z Z) Synthetic.hundred_and_one
                  (Synthetic.configured true true true))) = 100%nat
  /\ imu_deque_
       (fold_left (@ingest Z Z) Synthetic.hundred_and_one
          (Synthetic.configured true true true))
     = map (@sample_of Z) (tl Synthetic.hundred_and_one).
Proof.
  destruct (@C7_attitude_buffer_keeps_last_100 Z Z
              (Synthetic.configured true true true) Synthetic.hundred_and_one
              eq_refl) as [_ [Hlen Hkept]].
  split; [reflexivity |]. split; [exact Hlen | exact Hkept].
Defined.

(** The scenario of the specification: samples at 0.0 s, 0.1 s and 0.2 s
    with yaws of 0, 5 and 10 degrees, a scan at 0.15 s; the matcher returns
    the sample at 0.1 s and the difference -0.05 s. *)
Example findAligned_scenario :
  findAligned Synthetic.ts_diff
    [Synthetic.yawed 0 0; Synthetic.yawed (PI / 36) 100;
     Synthetic.yawed (PI / 18) 200] 150%Z
  = Ok (internal_imu_attitude_ (Synthetic.yawed (PI / 36) 100), (-1 # 20)%Q).
Proof. reflexivity. Qed.

(** C2 as stated fails: with a sample 5 s after the scan at index 0 and a
    sample exactly at the scan time (difference 0, so not positive) behind
    it, the matcher returns the attitude of the sample at index 0, whose
    difference is strictly positive, and not that of the sample at
    difference 0. *)
Lemma C2_counterexample_sample_at_scan_time :
  let later := Synthetic.yawed (PI / 2) 15000 in
  let on_time := Synthetic.yawed 0 10000 in
  let snapshot := [later; on_time] in
  internal_imu_attitude_ later <> internal_imu_attitude_ on_time
  /\ In on_time snapshot
  /\ (delta_of Synthetic.ts_diff 10000%Z on_time <= 0)%Q
  /\ (0 < delta_of Synthetic.ts_diff 10000%Z later)%Q
  /\ findAligned Synthetic.ts_diff snapshot 10000%Z
     = Ok (internal_imu_attitude_ later, 1000%Q)
  /\ ~ (exists (e : imu_data Z) (d : Q),
          In e snapshot
          /\ (delta_of Synthetic.ts_diff 10000%Z e <= 0)%Q
          /\ findAligned Synthetic.ts_diff snapshot 10000%Z
             = Ok (internal_imu_attitude_ e, d)
          /\ d = delta_of Synthetic.ts_diff 10000%Z e).
Proof.
  cbv zeta. split.
  { intros H. apply (f_equal (fun m => m00 (block m))) in H. cbn in H.
    rewrite cos_PI2, cos_0 in H. Lra.lra. }
  split; [right; left; reflexivity |].
  split; [vm_compute; discriminate |].
  split; [reflexivity |].
  split; [reflexivity |].
  intros [e [d [Hin [Hle [Hfind Hd]]]]].
  assert (E : findAligned Synthetic.ts_diff
                [Synthetic.yawed (PI / 2) 15000; Synthetic.yawed 0 10000] 10000%Z
              = Ok (internal_imu_attitude_ (Synthetic.yawed (PI / 2) 15000), 1000%Q))
    by reflexivity.
  rewrite E in Hfind. injection Hfind as _ Hd'. rewrite <- Hd' in Hd.
  destruct Hin as [<- | [<- | []]]; vm_compute in Hd; discriminate.
Qed.

(** C5 as stated fails: with [check_imu_data_] set, [imu_threshold_] 2 s
    and the only sample 1 s before the scan, the difference is within the
    configured threshold and yet the cycle leaves [use_imu_data_] false. *)
Lemma C5_counterexample_within_imu_threshold :
  let s := Synthetic.running true true false [Synthetic.yawed 0 9000] in
  exists (s' : State Z Z) (evs : list (event Z Z)),
    Synthetic.UpdateEstimate Identity4 s 10000%Z = Ok (true, s', evs)
    /\ In (PublishTimestampDifference (-1)%Q) evs
    /\ check_imu_data_ s = true
    /\ imu_threshold_ s = 2%Q
    /\ (Qabs (-1) <= imu_threshold_ s)%Q
    /\ use_imu_data_ s' = false
    /\ ~ (use_imu_data_ s' = true <-> (Qabs (-1) <= imu_threshold_ s)%Q).
Proof.
  cbv zeta. eexists. eexists.
  split; [reflexivity |].
  split; [left; reflexivity |].
  split; [reflexivity |].
  split; [reflexivity |].
  split; [vm_compute; discriminate |].
  split; [reflexivity |].
  intros [_ H]. cbn in H.
  assert (Hle : (Qabs (-1) <= 2)%Q) by (vm_compute; discriminate).
  specialize (H Hle). discriminate.
Qed.

Lemma C5_mode_check_uses_fixed_threshold_witness :
  let s := Synthetic.running false true false
             [Synthetic.yawed 0 0; Synthetic.yawed 0 100; Synthetic.yawed 0 200] in
  initialized_ s = true
  /\ imu_deque_ s <> []
  /\ exists (s' : State Z Z) (evs : list (event Z Z)),
       Synthetic.UpdateEstimate Identity4 s 140%Z = Ok (true, s', evs)
       /\ use_imu_data_ s' = true.
Proof.
  cbv zeta. split; [reflexivity |]. split; [discriminate |].
  destruct (@C5_mode_check_uses_fixed_threshold Z Z Synthetic.stamp_of
              Synthetic.ts_diff Synthetic.inverse (Synthetic.icp_align Identity4)
              Synthetic.PoseUpdate Synthetic.ToEulerZYX
              (Synthetic.running false true false
                 [Synthetic.yawed 0 0; Synthetic.yawed 0 100; Synthetic.yawed 0 200])
              140%Z eq_refl)
    as [cur [d [s' [evs [Hfind [Hrun [Hmode _]]]]]]].
  - discriminate.
  - exists s', evs. split; [exact Hrun |].
    rewrite Hmode. injection Hfind as _ <-. reflexivity.
Defined.

Lemma Norm_half_step : Norm (col3 Synthetic.half_step) = (1 / 2)%R.
Proof.
  unfold Norm. cbn [Synthetic.half_step col3 vx vy vz].
  replace (1 / 2 * (1 / 2) + 0 * 0 + 0 * 0)%R with ((1 / 2) * (1 / 2))%R by Lra.lra.
  apply sqrt_square. Lra.lra.
Qed.

(** A translation of norm 0.5 against [max_translation_] 0.3. *)
Lemma half_step_too_large :
  small_enough Synthetic.ToEulerZYX true (3 / 10) 1
    (to_Transform3 Synthetic.half_step) = false.
Proof.
  unfold small_enough. cbn [negb orb to_Transform3 translation].
  rewrite Norm_half_step. unfold Rleb at 1.
  destruct (Rle_dec (1 / 2) (3 / 10)) as [H | H]; [exfalso; Lra.lra | reflexivity].
Qed.

Lemma C3_gate_inclusive_thresholds_witness :
  let s := Synthetic.running false false true [] in
  exists (s' : State Z Z) (evs : list (event Z Z)),
    Synthetic.UpdateICP Synthetic.half_step s = Ok (true, s', evs)
    /\ incremental_estimate_ s' = to_Transform3 Synthetic.half_step
    /\ integrated_estimate_ s' = integrated_estimate_ s.
Proof.
  cbv zeta. eexists. eexists. split; [reflexivity |]. split; [reflexivity |].
  match goal with
  | |- integrated_estimate_ ?s' = integrated_estimate_ ?s =>
      destruct (@C3_gate_inclusive_thresholds Z Z
                  (Synthetic.icp_align Synthetic.half_step)
                  Synthetic.PoseUpdate Synthetic.ToEulerZYX s true s' _ eq_refl)
        as [Hint _]
  end.
  rewrite Hint.
  cbn [incremental_estimate_ transform_thresholding_ max_translation_
       max_rotation_ Synthetic.running].
  unfold Synthetic.icp_align.
  rewrite half_step_too_large. reflexivity.
Defined.

(** The scenario of the specification: the registration returns a
    translation of norm 0.5, [max_translation_] is 0.3 and thresholding is
    on; the incremental estimate reports the translation and the integrated
    estimate is the one before the call. *)
Lemma C4_rejected_transform_still_reported_witness :
  let s := Synthetic.running false false true [Synthetic.yawed 0 0] in
  initialized_ s = true
  /\ imu_deque_ s <> []
  /\ exists (s' : State Z Z) (evs : list (event Z Z)),
       Synthetic.UpdateEstimate Synthetic.half_step s 100%Z = Ok (true, s', evs)
       /\ Norm (translation (GetIncrementalEstimate s')) = (1 / 2)%R
       /\ GetIntegratedEstimate s' = integrated_estimate_ s
       /\ In (PublishPose_incremental (to_Transform3 Synthetic.half_step)) evs.
Proof.
  cbv zeta. split; [reflexivity |]. split; [discriminate |].
  destruct (@C4_rejected_transform_still_reported Z Z Synthetic.stamp_of
              Synthetic.ts_diff Synthetic.inverse
              (Synthetic.icp_align Synthetic.half_step)
              Synthetic.PoseUpdate Synthetic.ToEulerZYX
              (Synthetic.running false false true [Synthetic.yawed 0 0])
              100%Z eq_refl)
    as [cur [d [T [q [diag [s' [evs [_ [Hfuse [Hrun [_ [Hinc [Hpub Hrej]]]]]]]]]]]]].
  - discriminate.
  - cbn [check_imu_data_ use_imu_data_ Synthetic.running decideMode] in Hfuse.
    rewrite fuse_disabled in Hfuse. injection Hfuse as <- _ _.
    exists s', evs. split; [exact Hrun |].
    change (Synthetic.icp_align Synthetic.half_step 100%Z
              (query_ (Synthetic.running false false true [Synthetic.yawed 0 0])))
      with Synthetic.half_step in *.
    split; [rewrite Hinc; exact Norm_half_step |].
    split; [| exact Hpub].
    destruct (Hrej half_step_too_large) as [_ [Hint _]]. exact Hint.
Defined.

Lemma C8_fusion_off_keeps_registration_transform_witness :
  let s := Synthetic.running false false false [Synthetic.yawed 0 0] in
  initialized_ s = true
  /\ imu_deque_ s <> []
  /\ exists (s' : State Z Z) (evs : list (event Z Z)),
       Synthetic.UpdateEstimate Synthetic.half_step s 100%Z = Ok (true, s', evs)
       /\ use_imu_data_ s' = false
       /\ incremental_estimate_ s' = to_Transform3 Synthetic.half_step
       /\ length (imu_attitude_deque_ s') = 1%nat.
Proof.
  cbv zeta. split; [reflexivity |]. split; [discriminate |].
  destruct (@C8_fusion_off_keeps_registration_transform Z Z Synthetic.stamp_of
              Synthetic.ts_diff Synthetic.inverse
              (Synthetic.icp_align Synthetic.half_step)
              Synthetic.PoseUpdate Synthetic.ToEulerZYX
              (Synthetic.running false false false [Synthetic.yawed 0 0])
              100%Z eq_refl)
    as [cur [d [s' [evs [_ [Hrun [Hmode [_ Hoff]]]]]]]].
  - discriminate.
  - exists s', evs. split; [exact Hrun |].
    cbn [check_imu_data_ use_imu_data_ Synthetic.running decideMode] in Hmode.
    split; [exact Hmode |].
    destruct (Hoff (or_introl Hmode)) as [Hinc [_ [Hq _]]].
    split; [exact Hinc |]. rewrite Hq. reflexivity.
Defined.

(** The second cloud with IMU use switched off and no orientation sample
    received: the read of element 0 is out of range. *)
Lemma C10_buffer_read_needs_an_earlier_sample_witness :
  let s0 := Synthetic.configured false false false in
  fresh s0
  /\ exists (s : State Z Z),
       Synthetic.run Identity4 s0 [CallUpdateEstimate 0%Z] = Ok (s, [])
       /\ initialized_ s = true
       /\ use_imu_data_ s = false
       /\ Synthetic.UpdateEstimate Identity4 s 100%Z = OutOfRange.
Proof.
  cbv zeta.
  assert (Hfresh : fresh (Synthetic.configured false false false))
    by (repeat split).
  split; [exact Hfresh |].
  eexists. split; [reflexivity |]. split; [reflexivity |]. split; [reflexivity |].
  match goal with
  | |- Synthetic.UpdateEstimate _ ?s _ = _ =>
      destruct (@C10_buffer_read_needs_an_earlier_sample Z Z Synthetic.stamp_of
                  Synthetic.ts_diff Synthetic.inverse
                  (Synthetic.icp_align Identity4)
                  Synthetic.PoseUpdate Synthetic.ToEulerZYX
                  (Synthetic.configured false false false)
                  [CallUpdateEstimate 0%Z] s [] 100%Z Hfresh eq_refl eq_refl)
        as [_ [Hout _]]
  end.
  apply Hout. reflexivity.
Defined.

(** * The spliced rotation *)

Section SplicedRotation.

Local Open Scope R_scope.

Lemma atan2_right (y x : R) : 0 < x -> atan2 y x = atan (y / x).
Proof.
  intros Hx. unfold atan2.
  destruct (Rlt_dec 0 x) as [_ | N]; [reflexivity | contradiction].
Qed.

Lemma atan2_up (y : R) : 0 < y -> atan2 y 0 = PI / 2.
Proof.
  intros Hy. unfold atan2.
  destruct (Rlt_dec 0 0) as [H | _]; [exfalso; Lra.lra |].
  destruct (Rlt_dec 0 y) as [_ | N]; [reflexivity | contradiction].
Qed.

Lemma atan2_0_1 : atan2 0 1 = 0.
Proof.
  rewrite atan2_right by Lra.lra.
  replace (0 / 1) with 0 by Lra.lra. apply atan_0.
Qed.

Lemma atan2_1_0 : atan2 1 0 = PI / 2.
Proof. apply atan2_up. Lra.lra. Qed.

(** The sine and cosine of an eighth of a turn: equal, and strictly
    between 0 and 1. *)
Lemma eighth_turn :
  sin (PI / 4) = cos (PI / 4) /\ 0 < cos (PI / 4) /\ cos (PI / 4) < 1.
Proof.
  assert (Hpi := PI_RGT_0).
  assert (E : sin (PI / 4) = cos (PI / 4)) by (rewrite sin_PI4, cos_PI4; reflexivity).
  assert (Hpos : 0 < cos (PI / 4)) by (apply cos_gt_0; Lra.lra).
  split; [exact E |]. split; [exact Hpos |].
  assert (H := sin2_cos2 (PI / 4)). unfold Rsqr in H. rewrite E in H.
  Lra.nra.
Qed.

Lemma eighth_turn_square : 2 * (cos (PI / 4) * cos (PI / 4)) = 1.
Proof.
  destruct eighth_turn as [E _].
  assert (H := sin2_cos2 (PI / 4)). unfold Rsqr in H. rewrite E in H. Lra.lra.
Qed.

(** The unit quaternions of the two orientation samples. *)
Lemma toRotationMatrix_level : toRotationMatrix 1 0 0 0 = Identity3.
Proof. unfold toRotationMatrix, Identity3. f_equal; Lra.lra. Qed.

Lemma toRotationMatrix_quarter_roll :
  toRotationMatrix (cos (PI / 4)) (sin (PI / 4)) 0 0 = AngleAxisX (PI / 2).
Proof.
  destruct eighth_turn as [E _]. assert (H := eighth_turn_square).
  unfold toRotationMatrix, AngleAxisX. rewrite sin_PI2, cos_PI2, E.
  f_equal; Lra.lra.
Qed.

Lemma inverse_Identity4 : Synthetic.inverse Identity4 = Identity4.
Proof. reflexivity. Qed.

Lemma mat4_mul_Identity4 (a : Mat3) :
  mat4_mul (set_block Identity4 a) Identity4 = set_block Identity4 a.
Proof.
  destruct a. unfold mat4_mul, mat3_mul, mat3_vec, vec_mat3, dot, set_block, Identity4,
    Identity3.
  cbn [block col3 row3 m33 vx vy vz m00 m01 m02 m10 m11 m12 m20 m21 m22].
  f_equal; [f_equal; Lra.lra | f_equal; Lra.lra | f_equal; Lra.lra | Lra.lra].
Qed.

(** The angles [getRPY] reads off the IMU delta: roll a quarter turn,
    pitch and yaw 0. *)
Lemma getRPY_quarter_roll :
  getRPY (block Synthetic.quarter_roll) = mkVec3 (PI / 2) 0 0.
Proof.
  unfold getRPY.
  cbn [Synthetic.quarter_roll set_block block AngleAxisX m00 m10 m20 m21 m22].
  destruct (Rle_dec 1 (Rabs 0)) as [H | _].
  { rewrite Rabs_R0 in H. exfalso. Lra.lra. }
  rewrite asin_0, Ropp_0, cos_0, sin_PI2, cos_PI2.
  replace (1 / 1) with 1 by Lra.lra. replace (0 / 1) with 0 by Lra.lra.
  rewrite atan2_1_0, atan2_0_1. reflexivity.
Qed.

(** The angles [getRPY] reads off the registration result: yaw an eighth
    of a turn, roll and pitch 0. *)
Lemma getRPY_eighth_yaw :
  getRPY (block Synthetic.eighth_yaw) = mkVec3 0 0 (PI / 4).
Proof.
  destruct eighth_turn as [E [Hpos _]].
  unfold getRPY.
  cbn [Synthetic.eighth_yaw block AngleAxisZ m00 m10 m20 m21 m22].
  destruct (Rle_dec 1 (Rabs 0)) as [H | _].
  { rewrite Rabs_R0 in H. exfalso. Lra.lra. }
  rewrite asin_0, Ropp_0, cos_0, E.
  replace (1 / 1) with 1 by Lra.lra. replace (0 / 1) with 0 by Lra.lra.
  rewrite atan2_0_1.
  rewrite atan2_right by (unfold Rdiv; rewrite Rinv_1, Rmult_1_r; exact Hpos).
  replace (cos (PI / 4) / 1 / (cos (PI / 4) / 1)) with 1 by (field; Lra.lra).
  rewrite atan_1. reflexivity.
Qed.

(** The product of lines 369-371 for these angles. *)
Lemma OUTPUT_ROTATION_quarter_roll_eighth_yaw :
  OUTPUT_ROTATION (PI / 2) 0 (PI / 4)
  = mkMat3 (cos (PI / 4)) (- sin (PI / 4)) 0
           0 0 (- 1)
           (sin (PI / 4)) (cos (PI / 4)) 0.
Proof.
  unfold OUTPUT_ROTATION, mat3_mul, AngleAxisX, AngleAxisY, AngleAxisZ.
  cbn [m00 m01 m02 m10 m11 m12 m20 m21 m22].
  rewrite sin_PI2, cos_PI2, sin_0, cos_0.
  f_equal; Lra.lra.
Qed.

(** The angles [getRPY] reads off that product: the roll is the quarter
    turn, but the pitch is minus an eighth of a turn and the yaw is 0. *)
Lemma getRPY_OUTPUT_ROTATION_quarter_roll_eighth_yaw :
  getRPY (OUTPUT_ROTATION (PI / 2) 0 (PI / 4)) = mkVec3 (PI / 2) (- (PI / 4)) 0.
Proof.
  destruct eighth_turn as [E [Hpos Hlt]]. assert (Hpi := PI_RGT_0).
  rewrite OUTPUT_ROTATION_quarter_roll_eighth_yaw.
  unfold getRPY. cbn [m00 m10 m20 m21 m22].
  destruct (Rle_dec 1 (Rabs (sin (PI / 4)))) as [H | _].
  { rewrite E, Rabs_pos_eq in H by Lra.lra. exfalso. Lra.lra. }
  rewrite asin_sin by Lra.lra. rewrite cos_neg.
  replace (cos (PI / 4) / cos (PI / 4)) with 1 by (field; Lra.lra).
  replace (0 / cos (PI / 4)) with 0 by (field; Lra.lra).
  rewrite atan2_1_0, atan2_0_1. reflexivity.
Qed.

(** *** Any roll and yaw within a quarter turn *)

Lemma atan2_sin_cos (a : R) :
  - (PI / 2) < a < PI / 2 -> atan2 (sin a / 1) (cos a / 1) = a.
Proof.
  intros Ha. assert (Hc : 0 < cos a) by (apply cos_gt_0; Lra.lra).
  rewrite atan2_right by (unfold Rdiv; rewrite Rinv_1, Rmult_1_r; exact Hc).
  replace (sin a / 1 / (cos a / 1)) with (tan a) by (unfold tan; field; Lra.lra).
  apply atan_tan. exact Ha.
Qed.

Lemma atan2_0_1_over_1 : atan2 (0 / 1) (1 / 1) = 0.
Proof.
  replace (0 / 1) with 0 by Lra.lra. replace (1 / 1) with 1 by Lra.lra.
  apply atan2_0_1.
Qed.

(** [getRPY] gives back the angle of a pure roll and of a pure yaw. *)
Lemma getRPY_AngleAxisX (r : R) :
  - (PI / 2) < r < PI / 2 -> getRPY (AngleAxisX r) = mkVec3 r 0 0.
Proof.
  intros Hr. unfold getRPY. cbn [AngleAxisX m00 m10 m20 m21 m22].
  destruct (Rle_dec 1 (Rabs 0)) as [H | _].
  { rewrite Rabs_R0 in H. exfalso. Lra.lra. }
  rewrite asin_0, Ropp_0, cos_0, (atan2_sin_cos Hr), atan2_0_1_over_1.
  reflexivity.
Qed.

Lemma getRPY_AngleAxisZ (y : R) :
  - (PI / 2) < y < PI / 2 -> getRPY (AngleAxisZ y) = mkVec3 0 0 y.
Proof.
  intros Hy. unfold getRPY. cbn [AngleAxisZ m00 m10 m20 m21 m22].
  destruct (Rle_dec 1 (Rabs 0)) as [H | _].
  { rewrite Rabs_R0 in H. exfalso. Lra.lra. }
  rewrite asin_0, Ropp_0, cos_0, (atan2_sin_cos Hy), atan2_0_1_over_1.
  reflexivity.
Qed.

Lemma sin_within_quarter_turn (a : R) : 0 < a < PI / 2 -> 0 < sin a < 1.
Proof.
  intros Ha. assert (Hs : 0 < sin a) by (apply sin_gt_0; Lra.lra).
  assert (Hc : 0 < cos a) by (apply cos_gt_0; Lra.lra).
  assert (H := sin2_cos2 a). unfold Rsqr in H.
  split; [exact Hs | Lra.nra].
Qed.

Lemma asin_positive (m : R) : 0 < m < 1 -> 0 < asin m.
Proof.
  intros Hm. assert (Hb := asin_bound m). assert (Hpi := PI_RGT_0).
  assert (Hs : sin (asin m) = m) by (apply sin_asin; Lra.lra).
  destruct (Rtotal_order (asin m) 0) as [Hneg | [Hzero | Hpos]].
  - assert (sin (asin m) < 0) by (apply sin_lt_0_var; Lra.lra). Lra.lra.
  - rewrite Hzero, sin_0 in Hs. Lra.lra.
  - exact Hpos.
Qed.

(** For an IMU delta that is a pure roll and a registration rotation that
    is a pure yaw, both strictly between 0 and a quarter turn, [getRPY]
    reads the roll (with pitch 0) and the yaw back, but the pitch it reads
    off the product of lines 369-371 is [- asin (sin roll * sin yaw)],
    which is negative and so not the delta's pitch. *)
Lemma spliced_pitch_of_roll_and_yaw (roll yaw : R) :
  0 < roll < PI / 2 ->
  0 < yaw < PI / 2 ->
  getRPY (AngleAxisX roll) = mkVec3 roll 0 0
  /\ getRPY (AngleAxisZ yaw) = mkVec3 0 0 yaw
  /\ vy (getRPY (OUTPUT_ROTATION roll 0 yaw)) = - asin (sin roll * sin yaw)
  /\ vy (getRPY (OUTPUT_ROTATION roll 0 yaw)) < vy (getRPY (AngleAxisX roll)).
Proof.
  intros Hr Hy.
  assert (Hsr := sin_within_quarter_turn Hr).
  assert (Hsy := sin_within_quarter_turn Hy).
  assert (Hm : 0 < sin roll * sin yaw < 1) by (split; Lra.nra).
  assert (E20 : m20 (OUTPUT_ROTATION roll 0 yaw) = sin roll * sin yaw).
  { unfold OUTPUT_ROTATION, mat3_mul, AngleAxisX, AngleAxisY, AngleAxisZ.
    cbn [m00 m01 m02 m10 m11 m12 m20 m21 m22]. rewrite sin_0, cos_0. ring. }
  assert (Epitch : vy (getRPY (OUTPUT_ROTATION roll 0 yaw))
                   = - asin (sin roll * sin yaw)).
  { unfold getRPY. rewrite E20.
    destruct (Rle_dec 1 (Rabs (sin roll * sin yaw))) as [H | _].
    - rewrite Rabs_pos_eq in H by Lra.lra. exfalso. Lra.lra.
    - reflexivity. }
  rewrite getRPY_AngleAxisX by Lra.lra. rewrite getRPY_AngleAxisZ by Lra.lra.
  split; [reflexivity |]. split; [reflexivity |]. split; [exact Epitch |].
  rewrite Epitch. cbn [vy]. assert (H := asin_positive Hm). Lra.lra.
Qed.

End SplicedRotation.

(** C1 at inputs with known Euler angles.  The IMU delta is a roll of a
    quarter turn with pitch 0, the registration rotation a yaw of an eighth
    of a turn.  [UpdateICP] keeps the translation and sets the rotation to
    the product of lines 369-371; the angles [getRPY] reads off that
    product are roll PI/2, pitch -PI/4 and yaw 0: the pitch is not the
    delta's 0 and the yaw is not the registration's PI/4, each off by more
    than 3/4 rad. *)
Theorem C1_spliced_rotation_at_quarter_roll :
  let s := Synthetic.fusing [Synthetic.quarter_roll] in
  getRPY (block Synthetic.quarter_roll) = mkVec3 (PI / 2) 0 0
  /\ getRPY (block Synthetic.eighth_yaw) = mkVec3 0 0 (PI / 4)
  /\ exists (s' : State Z Z) (evs : list (event Z Z)),
       Synthetic.UpdateICP Synthetic.eighth_yaw s = Ok (true, s', evs)
       /\ In (PublishRpyImu (mkVec3 (PI / 2) 0 0)) evs
       /\ In (PublishRpyComputed (mkVec3 0 0 (PI / 4))) evs
       /\ translation (incremental_estimate_ s') = col3 Synthetic.eighth_yaw
       /\ rotation (incremental_estimate_ s') = OUTPUT_ROTATION (PI / 2) 0 (PI / 4)
       /\ getRPY (rotation (incremental_estimate_ s'))
          = mkVec3 (PI / 2) (- (PI / 4)) 0
       /\ (3 / 4 < Rabs (vy (getRPY (rotation (incremental_estimate_ s')))
                         - vy (getRPY (block Synthetic.quarter_roll))))%R
       /\ (3 / 4 < Rabs (vz (getRPY (rotation (incremental_estimate_ s')))
                         - vz (getRPY (block Synthetic.eighth_yaw))))%R.
Proof.
  cbv zeta.
  assert (Hdelta := getRPY_quarter_roll).
  assert (Hreg := getRPY_eighth_yaw).
  assert (Hout := getRPY_OUTPUT_ROTATION_quarter_roll_eighth_yaw).
  assert (Hpi := PI2_3_2).
  split; [exact Hdelta |]. split; [exact Hreg |].
  unfold Synthetic.UpdateICP, UpdateICP, Synthetic.icp_align.
  cbn [use_imu_data_ imu_attitude_deque_ Synthetic.fusing].
  rewrite fuse_enabled, Hdelta, Hreg. cbn [vx vy vz].
  eexists. eexists. split; [reflexivity |].
  cbn [incremental_estimate_ to_Transform3 translation rotation set_block
       block col3].
  split; [right; right; left; reflexivity |].
  split; [right; left; reflexivity |].
  split; [reflexivity |]. split; [reflexivity |].
  rewrite Hout. cbn [vy vz].
  split; [reflexivity |]. split.
  - replace (- (PI / 4) - 0)%R with (- (PI / 4))%R by Lra.lra.
    rewrite Rabs_Ropp, Rabs_pos_eq; Lra.lra.
  - replace (0 - PI / 4)%R with (- (PI / 4))%R by Lra.lra.
    rewrite Rabs_Ropp, Rabs_pos_eq; Lra.lra.
Qed.

(** * Runs of the synthetic set-up *)

(** Evaluation of the model on concrete calls; the real-valued matrix and
    angle code is carried along unevaluated. *)
Ltac run_model := lazy -[getRPY OUTPUT_ROTATION Norm Rleb IZR]; reflexivity.

(** Without fusion the two deltas stay queued. *)
Example delta_queue_grows_without_fusion :
  exists (s' : State Z Z) (evs : list (event Z Z)),
    Synthetic.run Synthetic.half_step (Synthetic.configured false false false)
      Synthetic.three_clouds = Ok (s', evs)
    /\ produced evs = 2%nat
    /\ consumed evs = 0%nat
    /\ length (imu_attitude_deque_ s') = 2%nat.
Proof. eexists. eexists. split; [run_model |]. repeat split. Qed.

(** In fusion mode each cycle takes the delta it has just queued. *)
Example delta_queue_drains_with_fusion :
  exists (s' : State Z Z) (evs : list (event Z Z)),
    Synthetic.run Synthetic.half_step (Synthetic.configured true false false)
      Synthetic.three_clouds = Ok (s', evs)
    /\ produced evs = 2%nat
    /\ consumed evs = 2%nat
    /\ length (imu_attitude_deque_ s') = 0%nat.
Proof. eexists. eexists. split; [run_model |]. repeat split. Qed.

(** Fusion switched on by the self-check after two cycles without it: the
    cycle takes the oldest of the three queued deltas and two remain. *)
Example delta_queue_after_late_fusion :
  exists (s1 s2 : State Z Z) (evs1 evs2 : list (event Z Z)),
    Synthetic.run Synthetic.half_step (Synthetic.configured false false false)
      Synthetic.three_clouds = Ok (s1, evs1)
    /\ Synthetic.UpdateEstimate Synthetic.half_step
         (mkState (initialized_ s1) (imu_data_has_been_received_ s1)
            true (check_imu_data_ s1) (imu_threshold_ s1)
            (transform_thresholding_ s1) (max_translation_ s1) (max_rotation_ s1)
            (imu_deque_ s1) (imu_attitude_deque_ s1) (imu_first_attitude_ s1)
            (imu_previous_attitude_ s1) (imu_current_attitude_ s1)
            (imu_change_in_attitude_ s1) (query_ s1) (reference_ s1) (stamp_ s1)
            (incremental_estimate_ s1) (integrated_estimate_ s1))
         350%Z = Ok (true, s2, evs2)
    /\ length (imu_attitude_deque_ s1) = 2%nat
    /\ consumed evs2 = 1%nat
    /\ imu_attitude_deque_ s2
       = tl (imu_attitude_deque_ s1 ++ [imu_change_in_attitude_ s2]).
Proof.
  eexists. eexists. eexists. eexists.
  split; [run_model |]. split; [run_model |]. repeat split.
Qed.

(** The first cloud with IMU use configured and no orientation sample yet:
    no update, still uninitialized; after a sample the next cloud
    initializes. *)
Example first_cloud_waits_for_the_imu :
  exists (s1 s2 : State Z Z),
    Synthetic.UpdateEstimate Identity4 (Synthetic.configured true false false) 50%Z
    = Ok (false, s1, [])
    /\ initialized_ s1 = false
    /\ query_ s1 = 50%Z
    /\ Synthetic.UpdateEstimate Identity4 (SetImuData s1 1 0 0 0 60%Z) 150%Z
       = Ok (false, s2, [])
    /\ initialized_ s2 = true.
Proof.
  eexists. eexists. split; [run_model |]. split; [reflexivity |].
  split; [reflexivity |]. split; [run_model | reflexivity].
Qed.

(** The inputs of C1's evaluation arise from calls alone: a level sample,
    the first cloud, a sample rolled by a quarter turn and the second
    cloud, with a registration that reports a yaw of an eighth of a turn.
    The cycle publishes the delta's angles (PI/2, 0, 0) and the
    registration's (0, 0, PI/4) and leaves an incremental rotation whose
    angles are (PI/2, -PI/4, 0). *)
Example quarter_roll_between_two_clouds :
  exists (s' : State Z Z) (evs : list (event Z Z)),
    Synthetic.run Synthetic.eighth_yaw (Synthetic.configured true false false)
      Synthetic.rolling_over = Ok (s', evs)
    /\ In (PublishTimestampDifference (-1 # 20)%Q) evs
    /\ In (PublishRpyImu (mkVec3 (PI / 2) 0 0)) evs
    /\ In (PublishRpyComputed (mkVec3 0 0 (PI / 4))) evs
    /\ translation (incremental_estimate_ s') = col3 Synthetic.eighth_yaw
    /\ getRPY (rotation (incremental_estimate_ s')) = mkVec3 (PI / 2) (- (PI / 4)) 0.
Proof.
  assert (Hdelta :
            mat4_mul (set_block Identity4 (toRotationMatrix (cos (PI / 4)) (sin (PI / 4)) 0 0))
              (Synthetic.inverse (set_block Identity4 (toRotationMatrix 1 0 0 0)))
            = Synthetic.quarter_roll).
  { rewrite toRotationMatrix_level, toRotationMatrix_quarter_roll.
    change (set_block Identity4 Identity3) with Identity4.
    rewrite inverse_Identity4. apply mat4_mul_Identity4. }
  assert (Hroll := getRPY_quarter_roll).
  assert (Hyaw := getRPY_eighth_yaw).
  eexists. eexists. split.
  { lazy -[getRPY OUTPUT_ROTATION Norm Rleb mat4_mul toRotationMatrix
           Synthetic.inverse set_block Identity4 Synthetic.eighth_yaw cos sin PI
           Rdiv IZR block col3 vx vy vz].
    rewrite Hdelta, Hroll, Hyaw. cbn [vx vy vz]. reflexivity. }
  split; [left; reflexivity |].
  split; [right; right; right; left; reflexivity |].
  split; [right; right; left; reflexivity |].
  cbn [incremental_estimate_ to_Transform3 translation rotation set_block block col3].
  split; [reflexivity |].
  apply getRPY_OUTPUT_ROTATION_quarter_roll_eighth_yaw.
Qed.

(** * Further properties at concrete inputs *)

(** Evaluation of the model with the real-valued code left alone. *)
Ltac run_model_more :=
  lazy -[getRPY OUTPUT_ROTATION Norm Rleb IZR Q2R toRotationMatrix mat3_mul
         AngleAxisX AngleAxisY AngleAxisZ cos sin PI Rdiv];
  reflexivity.

Lemma fresh_configured (use check thresholding : bool) :
  fresh (Synthetic.configured use check thresholding).
Proof. repeat split. Qed.

(** The member functions at the synthetic collaborators, with the
    registration returning [T]. *)
Local Abbreviation run_with T :=
  (PointCloudOdometry.run Synthetic.stamp_of Synthetic.ts_diff Synthetic.inverse
     (Synthetic.icp_align T) Synthetic.PoseUpdate Synthetic.ToEulerZYX).

Local Abbreviation UpdateEstimate_with T :=
  (PointCloudOdometry.UpdateEstimate Synthetic.stamp_of Synthetic.ts_diff
     Synthetic.inverse (Synthetic.icp_align T) Synthetic.PoseUpdate
     Synthetic.ToEulerZYX).

(** The three clouds of the synthetic set-up run through. *)
Lemma three_clouds_run (use : bool) :
  exists (s' : State Z Z) (evs : list (event Z Z)),
    run_with Synthetic.half_step (Synthetic.configured use false false)
      Synthetic.three_clouds = Ok (s', evs).
Proof. destruct use; eexists; eexists; run_model. Qed.

Lemma X1_buffer_holds_last_100_across_cycles_witness :
  imu_deque_ (Synthetic.configured false false false) = []
  /\ exists (s' : State Z Z) (evs : list (event Z Z)),
       run_with Synthetic.half_step (Synthetic.configured false false false)
         Synthetic.three_clouds = Ok (s', evs)
       /\ length (imu_deque_ s') = 1%nat.
Proof.
  split; [reflexivity |].
  destruct (three_clouds_run false) as [s' [evs Hrun]].
  exists s', evs. split; [exact Hrun |].
  destruct (X1_buffer_holds_last_100_across_cycles
              Synthetic.stamp_of Synthetic.ts_diff Synthetic.inverse
              (Synthetic.icp_align Synthetic.half_step) Synthetic.PoseUpdate
              Synthetic.ToEulerZYX (Synthetic.configured false false false)
              Synthetic.three_clouds eq_refl Hrun) as [_ Hlen].
  exact Hlen.
Defined.

Lemma X2_first_delta_is_measured_from_first_sample_witness :
  let s0 := Synthetic.configured true false false in
  imu_data_has_been_received_ s0 = false
  /\ exists (s : State Z Z),
       run_with Identity4 s0 Trials.two_samples = Ok (s, [])
       /\ length (imu_deque_ s) = 2%nat
       /\ imu_first_attitude_ s = set_block Identity4 (toRotationMatrix 1 0 0 0)
       /\ exists s' : State Z Z,
            UpdateEstimate_with Identity4 s 150%Z = Ok (false, s', [])
            /\ initialized_ s' = true
            /\ imu_previous_attitude_ s'
               = set_block Identity4 (toRotationMatrix 1 0 0 0).
Proof.
  cbv zeta. split; [reflexivity |].
  eexists. split; [reflexivity |]. split; [reflexivity |].
  match goal with
  | |- imu_first_attitude_ ?s = _ /\ _ =>
      destruct (X2_first_delta_is_measured_from_first_sample
                  Synthetic.stamp_of Synthetic.ts_diff Synthetic.inverse
                  (Synthetic.icp_align Identity4) Synthetic.PoseUpdate
                  Synthetic.ToEulerZYX (Synthetic.configured true false false)
                  Trials.two_samples (s := s) (evs := []) 150%Z
                  eq_refl eq_refl eq_refl) as [Hfirst Hinit]
  end.
  split; [exact Hfirst |]. exact (Hinit eq_refl eq_refl).
Defined.

Lemma X3_registration_pairs_consecutive_clouds_witness :
  exists (s' : State Z Z) (evs : list (event Z Z)),
    run_with Synthetic.half_step (Synthetic.configured false false false)
      Synthetic.three_clouds = Ok (s', evs)
    /\ query_ s' = 250%Z
    /\ (forall source target : Z,
          In (IcpAlign source target) evs ->
          consecutive target source [0%Z; 50%Z; 150%Z; 250%Z]).
Proof.
  destruct (three_clouds_run false) as [s' [evs Hrun]].
  exists s', evs. split; [exact Hrun |].
  exact (X3_registration_pairs_consecutive_clouds
           Synthetic.stamp_of Synthetic.ts_diff Synthetic.inverse
           (Synthetic.icp_align Synthetic.half_step) Synthetic.PoseUpdate
           Synthetic.ToEulerZYX Synthetic.three_clouds
           (Synthetic.configured false false false) Hrun).
Defined.

Lemma X4_integrated_estimate_composes_accepted_increments_witness :
  exists (s' : State Z Z) (evs : list (event Z Z)),
    run_with Synthetic.half_step (Synthetic.configured false false false)
      Synthetic.three_clouds = Ok (s', evs)
    /\ integrated_estimate_ s'
       = fold_left Synthetic.PoseUpdate
           (filter (small_enough Synthetic.ToEulerZYX false (3 / 10) 1)
              (incrementals evs))
           Synthetic.origin.
Proof.
  destruct (three_clouds_run false) as [s' [evs Hrun]].
  exists s', evs. split; [exact Hrun |].
  exact (proj1 (X4_integrated_estimate_composes_accepted_increments
                  Synthetic.stamp_of Synthetic.ts_diff Synthetic.inverse
                  (Synthetic.icp_align Synthetic.half_step) Synthetic.PoseUpdate
                  Synthetic.ToEulerZYX Synthetic.three_clouds
                  (Synthetic.configured false false false) Hrun)).
Defined.

Lemma X5_configuration_is_kept_witness :
  exists (s' : State Z Z) (evs : list (event Z Z)),
    run_with Synthetic.half_step (Synthetic.configured true false false)
      Synthetic.three_clouds = Ok (s', evs)
    /\ use_imu_data_ s' = true
    /\ imu_threshold_ s' = 2%Q.
Proof.
  destruct (three_clouds_run true) as [s' [evs Hrun]].
  exists s', evs. split; [exact Hrun |].
  destruct (X5_configuration_is_kept
              Synthetic.stamp_of Synthetic.ts_diff Synthetic.inverse
              (Synthetic.icp_align Synthetic.half_step) Synthetic.PoseUpdate
              Synthetic.ToEulerZYX (Synthetic.configured true false false)
              Synthetic.three_clouds Hrun) as [_ [Hthr [_ [_ [_ Huse]]]]].
  split; [exact (Huse eq_refl) | exact Hthr].
Defined.

Lemma X9_GetLastPointCloud_gives_latest_cloud_witness :
  exists (s' : State Z Z) (evs : list (event Z Z)),
    run_with Synthetic.half_step (Synthetic.configured false false false)
      Synthetic.three_clouds = Ok (s', evs)
    /\ (initialized_ s' = true -> GetLastPointCloud s' = Some 250%Z).
Proof.
  destruct (three_clouds_run false) as [s' [evs Hrun]].
  exists s', evs. split; [exact Hrun |].
  exact (proj1 (proj2 (X9_GetLastPointCloud_gives_latest_cloud
                         Synthetic.stamp_of Synthetic.ts_diff Synthetic.inverse
                         (Synthetic.icp_align Synthetic.half_step)
                         Synthetic.PoseUpdate Synthetic.ToEulerZYX
                         Synthetic.three_clouds
                         (Synthetic.configured false false false) 0%Z Hrun))).
Defined.

(** Samples at 0 s, 0.1 s and 0.2 s, a scan at 0.14 s: the sample at
    0.1 s is 0.04 s earlier, so the cycle fuses. *)
Lemma X6_self_check_needs_close_earlier_sample_witness :
  let s := Synthetic.running false true false
             [Synthetic.yawed 0 0; Synthetic.yawed 0 100; Synthetic.yawed 0 200] in
  initialized_ s = true
  /\ imu_deque_ s <> []
  /\ check_imu_data_ s = true
  /\ exists (s' : State Z Z) (evs : list (event Z Z)),
       UpdateEstimate_with Identity4 s 140%Z = Ok (true, s', evs)
       /\ use_imu_data_ s' = true.
Proof.
  cbv zeta. split; [reflexivity |]. split; [discriminate |].
  split; [reflexivity |].
  destruct (X6_self_check_needs_close_earlier_sample
              Synthetic.stamp_of Synthetic.ts_diff Synthetic.inverse
              (Synthetic.icp_align Identity4) Synthetic.PoseUpdate
              Synthetic.ToEulerZYX
              (Synthetic.running false true false
                 [Synthetic.yawed 0 0; Synthetic.yawed 0 100; Synthetic.yawed 0 200])
              140%Z eq_refl) as [s' [evs [Hrun [Hiff _]]]].
  - discriminate.
  - reflexivity.
  - exists s', evs. split; [exact Hrun |]. apply Hiff.
    exists (Synthetic.yawed 0 100).
    split; [right; left; reflexivity |]. split; reflexivity.
Defined.

Lemma X7_fused_rotation_is_a_rotation_witness :
  let s := Synthetic.running true false false [Synthetic.yawed 0 0] in
  initialized_ s = true
  /\ imu_deque_ s <> []
  /\ exists (s' : State Z Z) (evs : list (event Z Z)),
       UpdateEstimate_with Synthetic.eighth_yaw s 100%Z = Ok (true, s', evs)
       /\ use_imu_data_ s' = true
       /\ is_rotation (rotation (incremental_estimate_ s')).
Proof.
  cbv zeta. split; [reflexivity |]. split; [discriminate |].
  destruct (X7_fused_rotation_is_a_rotation
              Synthetic.stamp_of Synthetic.ts_diff Synthetic.inverse
              (Synthetic.icp_align Synthetic.eighth_yaw) Synthetic.PoseUpdate
              Synthetic.ToEulerZYX
              (Synthetic.running true false false [Synthetic.yawed 0 0])
              100%Z eq_refl) as [s' [evs [Hrun Hrot]]].
  - discriminate.
  - exists s', evs. split; [exact Hrun |].
    assert (Huse : use_imu_data_ s' = true).
    { destruct (UpdateEstimate_frame _ _ _ _ _ _ _ _ Hrun)
        as [_ [_ [_ [_ [_ [_ [_ [_ [_ [_ [_ Hu]]]]]]]]]]].
      exact (Hu eq_refl). }
    split; [exact Huse |]. exact (proj1 (Hrot Huse)).
Defined.

Lemma X12_unit_quaternions_give_rotations_witness :
  imu_deque_ (Synthetic.configured true false false) = []
  /\ Forall (@unit_call Z Z) Synthetic.three_clouds
  /\ exists (s' : State Z Z) (evs : list (event Z Z)),
       run_with Synthetic.half_step (Synthetic.configured true false false)
         Synthetic.three_clouds = Ok (s', evs)
       /\ Forall (@attitude_is_rotation Z) (imu_deque_ s').
Proof.
  assert (Hunit : Forall (@unit_call Z Z) Synthetic.three_clouds).
  { repeat constructor. cbn. Lra.lra. }
  split; [reflexivity |]. split; [exact Hunit |].
  destruct (three_clouds_run true) as [s' [evs Hrun]].
  exists s', evs. split; [exact Hrun |].
  exact (X12_unit_quaternions_give_rotations
           Synthetic.stamp_of Synthetic.ts_diff Synthetic.inverse
           (Synthetic.icp_align Synthetic.half_step) Synthetic.PoseUpdate
           Synthetic.ToEulerZYX (Synthetic.configured true false false)
           eq_refl Hunit Hrun).
Defined.

Lemma X13_out_of_range_only_for_two_clouds_without_imu_witness :
  fresh (Synthetic.configured false false false)
  /\ run_with Identity4 (Synthetic.configured false false false)
       Trials.two_clouds = OutOfRange
  /\ run_with Identity4 (Synthetic.configured true false false)
       Trials.two_clouds <> OutOfRange.
Proof.
  split; [apply fresh_configured |]. split.
  - apply (X13_out_of_range_only_for_two_clouds_without_imu
             Synthetic.stamp_of Synthetic.ts_diff Synthetic.inverse
             (Synthetic.icp_align Identity4) Synthetic.PoseUpdate
             Synthetic.ToEulerZYX Trials.two_clouds
             (fresh_configured false false false)).
    split; [reflexivity |]. exists 0%Z, 100%Z, []. reflexivity.
  - intros H.
    apply (X13_out_of_range_only_for_two_clouds_without_imu
             Synthetic.stamp_of Synthetic.ts_diff Synthetic.inverse
             (Synthetic.icp_align Identity4) Synthetic.PoseUpdate
             Synthetic.ToEulerZYX Trials.two_clouds
             (fresh_configured true false false)) in H.
    destruct H as [H _]. discriminate.
Defined.

Lemma X14_delta_queue_when_mode_is_fixed_witness :
  fresh (Synthetic.configured true false false)
  /\ check_imu_data_ (Synthetic.configured true false false) = false
  /\ exists (s' : State Z Z) (evs : list (event Z Z)),
       run_with Synthetic.half_step (Synthetic.configured true false false)
         Synthetic.three_clouds = Ok (s', evs)
       /\ imu_attitude_deque_ s' = []
       /\ consumed evs = produced evs.
Proof.
  split; [apply fresh_configured |]. split; [reflexivity |].
  destruct (three_clouds_run true) as [s' [evs Hrun]].
  exists s', evs. split; [exact Hrun |].
  destruct (X14_delta_queue_when_mode_is_fixed
              Synthetic.stamp_of Synthetic.ts_diff Synthetic.inverse
              (Synthetic.icp_align Synthetic.half_step) Synthetic.PoseUpdate
              Synthetic.ToEulerZYX Synthetic.three_clouds
              (fresh_configured true false false) eq_refl Hrun)
    as [_ [Hon _]].
  exact (Hon eq_refl).
Defined.

(** * Start-up at a parameter server *)

(** Both frame ids are there; of the fiducial keys only the x position
    is. *)
Lemma X11_initial_pose_is_loaded_key_by_key_witness :
  Trials.get_string "frame_id/fixed" = Some "world"%string
  /\ Trials.get_string "frame_id/odometry" = Some "odom"%string
  /\ integrated_estimate_
       (snd (fst (Trials.LoadParameters (Synthetic.configured false false false)
                    Trials.no_settings)))
     = initial_pose Trials.get_double toRotationMatrix Trials.Roll Trials.Pitch
         Trials.Yaw Trials.Rot3
  /\ have_fiducial Trials.get_double = false
  /\ vx (translation
           (initial_pose Trials.get_double toRotationMatrix Trials.Roll
              Trials.Pitch Trials.Yaw Trials.Rot3)) = Q2R 2.
Proof.
  split; [reflexivity |]. split; [reflexivity |].
  destruct (X11_initial_pose_is_loaded_key_by_key
              Trials.get_string Trials.get_double Trials.get_bool Trials.get_int
              toRotationMatrix Trials.Roll Trials.Pitch Trials.Yaw Trials.Rot3
              (Synthetic.configured false false false) Trials.no_settings
              (fixed := "world"%string) (odometry := "odom"%string)
              eq_refl eq_refl) as [Hpose [_ Hx]].
  split; [exact Hpose |].
  destruct (Hx 2%Q eq_refl eq_refl) as [Hfid [Hvx _]].
  split; [exact Hfid | exact Hvx].
Defined.

Lemma Trials_Initialize_runs :
  exists (s' : State Z Z) (p' : Settings),
    Trials.Initialize (Synthetic.configured false false false) Trials.no_settings
    = (true, s', p').
Proof. eexists. eexists. run_model_more. Qed.


(** * Fusion with a level delta *)

Section LevelDelta.

Local Open Scope R_scope.

Variables PointCloud Time : Type.
Variable icp_align : PointCloud -> PointCloud -> Mat4.
Variable PoseUpdate : Transform3 -> Transform3 -> Transform3.
Variable ToEulerZYX : Mat3 -> Vec3.

Lemma getRPY_Identity3 : getRPY Identity3 = mkVec3 0 0 0.
Proof.
  unfold getRPY. cbn [Identity3 m00 m10 m20 m21 m22].
  destruct (Rle_dec 1 (Rabs 0)) as [H | _].
  { rewrite Rabs_R0 in H. exfalso. Lra.lra. }
  rewrite asin_0, Ropp_0, cos_0, atan2_0_1_over_1. reflexivity.
Qed.

(** Lines 369-371 with roll and pitch 0: the product is the yaw factor. *)
Lemma OUTPUT_ROTATION_level (y : R) : OUTPUT_ROTATION 0 0 y = AngleAxisZ y.
Proof.
  unfold OUTPUT_ROTATION, mat3_mul, AngleAxisX, AngleAxisY, AngleAxisZ.
  cbn. rewrite cos_0, sin_0. f_equal; ring.
Qed.


End LevelDelta.

